(** * Voltage spike monitor: cyclic feed reader and alert notifier

    A shallow embedding of [app.py] (the Flask back end: CSV feed, cursor,
    HTTP handlers) and [telegram_notifier.py] (the cooldown-gated notifier
    and the webhook helper), followed by the properties of the two
    components.

    Conventions of the embedding.
    - Python [float] and [int] values are rationals ([Q]) and integers
      ([Z]); arithmetic is exact.  Every finite float is a rational and the
      comparisons the code makes are against integers, so comparisons agree
      with the float ones.
    - Module globals and object attributes are record fields; a function
      that mutates them is a computation in the monad [M] below, which also
      threads the observable effects (console, logger, outbound messages)
      and carries raised exceptions.
    - What the process reads from outside (clock, random generator, the
      messaging transport, builtin conversions) is an [environment]. *)

From Stdlib Require Import ZArith QArith Qround Qabs String Ascii List Bool Lia Lqa.
Import ListNotations.

Set Warnings "-register-all".
Open Scope string_scope.
Open Scope Z_scope.

(* ================================================================== *)
(** ** Python values and builtins *)

Module Py.

(** A raised exception: its class name and [str(e)].  Every exception
    modelled here derives from [Exception]. *)
Inductive exception := Exc (cls : string) (msg : string).

Definition str_of_exception (e : exception) : string :=
  match e with Exc _ msg => msg end.

Inductive outcome (A : Type) :=
| Return (a : A)
| Raise (e : exception).
Arguments Return {A} a.
Arguments Raise {A} e.

(** What [json.loads] produces. *)
Inductive json :=
| JNull
| JBool (b : bool)
| JInt (z : Z)
| JFloat (q : Q)
| JStr (s : string)
| JArr (items : list json)
| JObj (fields : list (string * json)).

(** Dictionaries keep insertion order; keys are unique. *)
Fixpoint dict_find {V : Type} (d : list (string * V)) (k : string) : option V :=
  match d with
  | [] => None
  | (k', v) :: rest => if String.eqb k k' then Some v else dict_find rest k
  end.

(** [d.get(k, dflt)] *)
Definition dict_get {V : Type} (d : list (string * V)) (k : string) (dflt : V) : V :=
  match dict_find d k with
  | Some v => v
  | None => dflt
  end.

Definition default {A : Type} (dflt : A) (arg : option A) : A :=
  match arg with
  | Some a => a
  | None => dflt
  end.

(** [l[i]] with Python's negative indices. *)
Definition index {A : Type} (l : list A) (i : Z) : outcome A :=
  let n := Z.of_nat (length l) in
  let j := if i <? 0 then i + n else i in
  if (0 <=? j) && (j <? n) then
    match nth_error l (Z.to_nat j) with
    | Some x => Return x
    | None => Raise (Exc "IndexError" "list index out of range")
    end
  else Raise (Exc "IndexError" "list index out of range").

(** [l[i:]] *)
Definition slice_from {A : Type} (l : list A) (i : Z) : list A :=
  let n := Z.of_nat (length l) in
  let start := if i <? 0 then Z.max (i + n) 0 else Z.min i n in
  skipn (Z.to_nat start) l.

Definition nl : string := String (ascii_of_nat 10) EmptyString.

Definition digit (d : Z) : ascii := ascii_of_nat (48 + Z.to_nat d).

(** Decimal digits of a natural number, most significant first;
    [fuel] bounds the number of digits. *)
Fixpoint digits (fuel : nat) (n : Z) (acc : string) : string :=
  match fuel with
  | O => acc
  | S fuel' =>
      let acc' := String (digit (n mod 10)) acc in
      if n <? 10 then acc' else digits fuel' (n / 10) acc'
  end.

(** [str(n)] for an integer. *)
Definition decimal (n : Z) : string :=
  let m := Z.abs n in
  let body := digits (S (Z.to_nat (Z.log2 m))) m EmptyString in
  if n <? 0 then "-" ++ body else body.

Fixpoint repeat_char (c : ascii) (k : nat) : string :=
  match k with
  | O => EmptyString
  | S k' => String c (repeat_char c k')
  end.

(** [s.zfill(w)] for an unsigned numeral. *)
Definition zfill (w : nat) (s : string) : string :=
  repeat_char "0"%char (w - String.length s) ++ s.

Definition Qltb (x y : Q) : bool := negb (Qle_bool y x).

(** Rounding to the nearest integer, ties to even. *)
Definition round_half_even (q : Q) : Z :=
  let f := Qfloor q in
  match Qcompare (q - inject_Z f) (1 # 2) with
  | Lt => f
  | Gt => f + 1
  | Eq => if Z.even f then f else f + 1
  end.

(** [format(x, '.1f')] *)
Definition format_1f (x : Q) : string :=
  let n := round_half_even (Qabs x * 10) in
  (if Qltb x 0 then "-" else EmptyString)
    ++ decimal (n / 10) ++ "." ++ decimal (n mod 10).

(** Truthiness of a dict. *)
Definition truthy_dict {V : Type} (d : list (string * V)) : bool :=
  match d with
  | [] => false
  | _ :: _ => true
  end.

End Py.
Import Py.

(* ================================================================== *)
(** ** [datetime] *)

Module Datetime.

(** A naive [datetime.datetime]. *)
Record datetime := mkDatetime {
  year : Z; month : Z; day : Z;
  hour : Z; minute : Z; second : Z; microsecond : Z
}.

Definition is_leap (y : Z) : bool :=
  (y mod 4 =? 0) && (negb (y mod 100 =? 0) || (y mod 400 =? 0)).

Definition days_before_year (y : Z) : Z :=
  let p := y - 1 in p * 365 + p / 4 - p / 100 + p / 400.

Definition days_in_month (y m : Z) : Z :=
  if m =? 2 then (if is_leap y then 29 else 28)
  else if (m =? 4) || (m =? 6) || (m =? 9) || (m =? 11) then 30
  else 31.

Fixpoint days_before_month_aux (y : Z) (k : nat) : Z :=
  match k with
  | O => 0
  | S k' => days_before_month_aux y k' + days_in_month y (Z.of_nat k)
  end.

Definition days_before_month (y m : Z) : Z :=
  days_before_month_aux y (Z.to_nat (m - 1)).

(** [date.toordinal()]: 0001-01-01 is day 1. *)
Definition toordinal (d : datetime) : Z :=
  days_before_year (year d) + days_before_month (year d) (month d) + day d.

(** [a - b] as a [timedelta], kept as its whole number of microseconds. *)
Definition sub (a b : datetime) : Z :=
  let days := toordinal a - toordinal b in
  let secs := (hour a * 3600 + minute a * 60 + second a)
              - (hour b * 3600 + minute b * 60 + second b) in
  (days * 86400 + secs) * 1000000 + (microsecond a - microsecond b).

(** [timedelta.total_seconds()] *)
Definition total_seconds (td : Z) : Q := td # 1000000.

(** [strftime('%H:%M:%S')] *)
Definition strftime_HMS (d : datetime) : string :=
  zfill 2 (decimal (hour d)) ++ ":" ++ zfill 2 (decimal (minute d))
    ++ ":" ++ zfill 2 (decimal (second d)).

Definition strftime_Ymd (d : datetime) : string :=
  zfill 4 (decimal (year d)) ++ "-" ++ zfill 2 (decimal (month d))
    ++ "-" ++ zfill 2 (decimal (day d)).

(** [strftime('%Y-%m-%d %H:%M:%S')] *)
Definition strftime_Ymd_HMS (d : datetime) : string :=
  strftime_Ymd d ++ " " ++ strftime_HMS d.

(** [isoformat()] *)
Definition isoformat (d : datetime) : string :=
  strftime_Ymd d ++ "T" ++ strftime_HMS d
    ++ (if microsecond d =? 0 then EmptyString
        else "." ++ zfill 6 (decimal (microsecond d))).

End Datetime.
Import Datetime.

(* ================================================================== *)
(** ** Effects *)

(** One call of [bot.send_message(chat_id=..., text=..., parse_mode=...)]. *)
Record outbound := mkOutbound {
  out_chat_id : string;
  out_text : string;
  out_parse_mode : string
}.

Inductive level := INFO | ERROR.

(** What the process has done to the outside so far. *)
Record io := mkIO {
  stdout : list string;              (* lines printed, oldest first *)
  logged : list (level * string);    (* logger records, oldest first *)
  outbox : list outbound;            (* delivery attempts, oldest first *)
  clock_reads : nat;                 (* calls of datetime.now() *)
  random_draws : nat                 (* calls of random.random() *)
}.

(** What the outside answers. *)
Record environment := mkEnv {
  now_at : nat -> datetime;          (* the k-th datetime.now() *)
  random_at : nat -> Q;              (* the k-th random.random(), in [0, 1) *)
  transport : nat -> outbound -> option exception;
                                     (* the k-th delivery: None when it is
                                        accepted, or what send_message raises *)
  float_of_str : string -> outcome Q;   (* float(s) for a str *)
  format_other : json -> string      (* format(v, '') for floats and containers *)
}.

(** A computation over a state [St] (module globals or [self]). *)
Definition M (St A : Type) : Type := St -> io -> outcome A * St * io.

Definition ret {St A} (a : A) : M St A := fun s w => (Return a, s, w).

Definition bind {St A B} (m : M St A) (k : A -> M St B) : M St B :=
  fun s w =>
    match m s w with
    | (Return a, s', w') => k a s' w'
    | (Raise e, s', w') => (Raise e, s', w')
    end.

Definition raise {St A} (e : exception) : M St A := fun s w => (Raise e, s, w).

(** [try: body  except Exception as e: handler(e)].  What the body did
    before it raised stays done. *)
Definition try_except {St A} (body : M St A) (handler : exception -> M St A)
  : M St A :=
  fun s w =>
    match body s w with
    | (Return a, s', w') => (Return a, s', w')
    | (Raise e, s', w') => handler e s' w'
    end.

Definition lift_outcome {St A} (o : outcome A) : M St A := fun s w => (o, s, w).

Definition get {St} : M St St := fun s w => (Return s, s, w).

Definition modify {St} (f : St -> St) : M St unit := fun s w => (Return tt, f s, w).

(** Runs a computation on a component of the state. *)
Definition zoom {St Sub A} (proj : St -> Sub) (inj : Sub -> St -> St)
  (m : M Sub A) : M St A :=
  fun s w =>
    match m (proj s) w with
    | (r, sub', w') => (r, inj sub' s, w')
    end.

Declare Scope monad_scope.
Delimit Scope monad_scope with monad.
Notation "x <- m ;; k" := (bind m (fun x => k))
  (at level 100, m at next level, right associativity) : monad_scope.
Notation "m ;; k" := (bind m (fun _ => k))
  (at level 100, right associativity) : monad_scope.
Open Scope monad_scope.

Definition io_print (line : string) (w : io) : io :=
  mkIO (stdout w ++ [line])%list (logged w) (outbox w) (clock_reads w) (random_draws w).

Definition io_log (lvl : level) (text : string) (w : io) : io :=
  mkIO (stdout w) (logged w ++ [(lvl, text)])%list (outbox w) (clock_reads w)
       (random_draws w).

Definition io_tick (w : io) : io :=
  mkIO (stdout w) (logged w) (outbox w) (S (clock_reads w)) (random_draws w).

Definition io_draw (w : io) : io :=
  mkIO (stdout w) (logged w) (outbox w) (clock_reads w) (S (random_draws w)).

Definition io_send (msg : outbound) (w : io) : io :=
  mkIO (stdout w) (logged w) (outbox w ++ [msg])%list (clock_reads w) (random_draws w).

(** [print(line)] *)
Definition print {St} (line : string) : M St unit :=
  fun s w => (Return tt, s, io_print line w).

(** [logger.info(text)], [logger.error(text)] *)
Definition logger {St} (lvl : level) (text : string) : M St unit :=
  fun s w => (Return tt, s, io_log lvl text w).

Section Environment.

Variable env : environment.

(** [datetime.now()] *)
Definition datetime_now {St} : M St datetime :=
  fun s w => (Return (now_at env (clock_reads w)), s, io_tick w).

(** [random.random()] *)
Definition random_random {St} : M St Q :=
  fun s w => (Return (random_at env (random_draws w)), s, io_draw w).

(** [random.uniform(a, b)] is [a + (b - a) * random()]. *)
Definition random_uniform {St} (a b : Q) : M St Q :=
  r <- random_random ;;
  ret (a + (b - a) * r)%Q.

(** [await bot.send_message(...)]: the attempt is recorded, then the
    transport either accepts it or raises. *)
Definition bot_send_message {St} (msg : outbound) : M St unit :=
  fun s w =>
    match transport env (length (outbox w)) msg with
    | None => (Return tt, s, io_send msg w)
    | Some e => (Raise e, s, io_send msg w)
    end.

(** [format(v, '')], as an f-string field does. *)
Definition py_format (v : json) : string :=
  match v with
  | JStr s => s
  | JNull => "None"
  | JBool true => "True"
  | JBool false => "False"
  | JInt z => decimal z
  | JFloat _ | JArr _ | JObj _ => format_other env v
  end.

End Environment.

(* ================================================================== *)
(** ** telegram_notifier.py *)

Module TelegramNotifier.

Record VoltageSpikeNotifier := mkNotifier {
  bot_token : string;
  chat_id : string;
  last_alert_time : option datetime;
  alert_cooldown : Z
}.

(** [VoltageSpikeNotifier.__init__] *)
Definition init (bot_token chat_id : string) : VoltageSpikeNotifier :=
  mkNotifier bot_token chat_id None 300.

Definition set_last_alert_time (t : option datetime) (self : VoltageSpikeNotifier)
  : VoltageSpikeNotifier :=
  mkNotifier (bot_token self) (chat_id self) t (alert_cooldown self).

Record motif := mkMotif { emoji : string; color : string }.

Definition severity_config : list (string * motif) :=
  [ ("LOW", mkMotif "⚠️" "🟡");
    ("MEDIUM", mkMotif "⚡" "🟠");
    ("HIGH", mkMotif "🚨" "🔴");
    ("CRITICAL", mkMotif "💥" "🔴") ].

Definition severity_config_HIGH : motif := mkMotif "🚨" "🔴".

(** The f-string of the alert, before the additional data. *)
Definition alert_message (config : motif) (severity : string) (voltage : Q)
  (area : string) (now : datetime) : string :=
  emoji config ++ " *VOLTAGE SPIKE ALERT* " ++ emoji config ++ nl ++ nl
  ++ color config ++ " **Severity:** " ++ severity ++ nl
  ++ "⚡ **Voltage:** " ++ format_1f voltage ++ "V" ++ nl
  ++ "📍 **Area:** " ++ area ++ nl
  ++ "🕐 **Time:** " ++ strftime_Ymd_HMS now ++ nl ++ nl
  ++ "🚨 **IMMEDIATE ACTION REQUIRED:**" ++ nl
  ++ "• Turn off sensitive electronics" ++ nl
  ++ "• Unplug expensive equipment" ++ nl
  ++ "• Check circuit breakers" ++ nl
  ++ "• Monitor for additional spikes" ++ nl ++ nl
  ++ "⚠️ *This is an automated alert from your voltage monitoring system*".

Section WithEnv.

Variable env : environment.

(** [for key, value in additional_info.items(): message += ...] *)
Fixpoint append_items (message : string) (items : list (string * json)) : string :=
  match items with
  | [] => message
  | (key, value) :: rest =>
      append_items (message ++ "• " ++ key ++ ": " ++ py_format env value ++ nl) rest
  end.

Definition add_additional_info (message : string)
  (additional_info : option (list (string * json))) : string :=
  match additional_info with
  | Some info =>
      if truthy_dict info
      then append_items (message ++ nl ++ nl ++ "📊 **Additional Data:**" ++ nl) info
      else message
  | None => message
  end.

(** [send_voltage_spike_alert] from the severity lookup on: the part
    reached when the cooldown check does not return. *)
Definition deliver_alert (voltage : Q) (area severity : string)
  (additional_info : option (list (string * json)))
  : M VoltageSpikeNotifier bool :=
  let config := dict_get severity_config severity severity_config_HIGH in
  now <- datetime_now env ;;
  let message := alert_message config severity voltage area now in
  let message := add_additional_info message additional_info in
  try_except
    (self <- get ;;
     bot_send_message env (mkOutbound (chat_id self) message "Markdown") ;;
     sent_at <- datetime_now env ;;
     modify (set_last_alert_time (Some sent_at)) ;;
     logger INFO ("Successfully sent voltage spike alert to chat " ++ chat_id self) ;;
     ret true)
    (fun e =>
       logger ERROR ("Failed to send Telegram alert: " ++ str_of_exception e) ;;
       ret false).

(** [VoltageSpikeNotifier.send_voltage_spike_alert]; an omitted [area]
    or [severity] argument is [None] and takes the default of the
    signature. *)
Definition send_voltage_spike_alert (voltage : Q) (area severity : option string)
  (additional_info : option (list (string * json)))
  : M VoltageSpikeNotifier bool :=
  let area := default "Unknown Area" area in
  let severity := default "HIGH" severity in
  self <- get ;;
  match last_alert_time self with
  | Some last =>
      now <- datetime_now env ;;
      let time_since_last := total_seconds (sub now last) in
      if Qltb time_since_last (inject_Z (alert_cooldown self)) then
        logger INFO ("Alert cooldown active. Skipping alert. ("
                     ++ format_1f time_since_last ++ "s remaining)") ;;
        ret false
      else deliver_alert voltage area severity additional_info
  | None => deliver_alert voltage area severity additional_info
  end.

Record WebhookHandler := mkHandler { notifier : VoltageSpikeNotifier }.

Definition set_notifier (n : VoltageSpikeNotifier) (_ : WebhookHandler)
  : WebhookHandler := mkHandler n.

Definition type_name (v : json) : string :=
  match v with
  | JNull => "NoneType"
  | JBool _ => "bool"
  | JInt _ => "int"
  | JFloat _ => "float"
  | JStr _ => "str"
  | JArr _ => "list"
  | JObj _ => "dict"
  end.

(** The number a value stands for in [v >= 300]; the comparison raises
    [TypeError] on the others. *)
Definition as_number (v : json) : outcome Q :=
  match v with
  | JInt z => Return (inject_Z z)
  | JFloat q => Return q
  | JBool b => Return (if b then 1%Q else 0%Q)
  | _ => Raise (Exc "TypeError"
           ("'>=' not supported between instances of '" ++ type_name v
            ++ "' and 'int'"))
  end.

(** The severity ladder of [handle_voltage_data]. *)
Definition severity_for (voltage : Q) : string :=
  if Qle_bool 300 voltage then "CRITICAL"
  else if Qle_bool 280 voltage then "HIGH"
  else if Qle_bool 260 voltage then "MEDIUM"
  else "LOW".

(** [WebhookHandler.handle_voltage_data] *)
Definition handle_voltage_data (data : list (string * json))
  : M WebhookHandler unit :=
  let voltage_v := dict_get data "voltage" (JInt 0) in
  let area := dict_get data "area" (JStr "Unknown Area") in
  now <- datetime_now env ;;
  let timestamp := dict_get data "timestamp" (JStr (isoformat now)) in
  voltage <- lift_outcome (as_number voltage_v) ;;
  let severity := severity_for voltage in
  if Qltb 234 voltage then
    zoom notifier set_notifier
      (send_voltage_spike_alert voltage (Some (py_format env area)) (Some severity)
         (Some [("Timestamp", timestamp); ("Threshold", JStr "234V")])) ;;
    ret tt
  else ret tt.

Definition status_emoji_table : list (string * string) :=
  [ ("ONLINE", "🟢"); ("OFFLINE", "🔴"); ("MAINTENANCE", "🟡") ].

(** Truthiness of an optional float: [None] and zero are false. *)
Definition truthy_float (v : option Q) : bool :=
  match v with
  | Some q => negb (Qeq_bool q 0)
  | None => false
  end.

(** Truthiness of an optional str: [None] and the empty string are false. *)
Definition truthy_str (s : option string) : bool :=
  match s with
  | Some EmptyString => false
  | Some _ => true
  | None => false
  end.

(** The text [send_system_status] builds. *)
Definition status_message (status : string) (voltage : option Q)
  (uptime : option string) (now : datetime) : string :=
  let status_emoji := dict_get status_emoji_table status "⚪" in
  let message :=
    status_emoji ++ " *SYSTEM STATUS UPDATE*" ++ nl ++ nl
    ++ "**Status:** " ++ status ++ nl
    ++ "**Time:** " ++ strftime_Ymd_HMS now ++ nl in
  let message :=
    if truthy_float voltage
    then message ++ "**Current Voltage:** " ++ format_1f (default 0%Q voltage) ++ "V" ++ nl
    else message in
  if truthy_str uptime
  then message ++ "**Uptime:** " ++ default EmptyString uptime ++ nl
  else message.

(** [VoltageSpikeNotifier.send_system_status]; an omitted [status] is
    [None] and takes the default of the signature. *)
Definition send_system_status (status : option string) (voltage : option Q)
  (uptime : option string) : M VoltageSpikeNotifier bool :=
  let status := default "ONLINE" status in
  now <- datetime_now env ;;
  let message := status_message status voltage uptime now in
  try_except
    (self <- get ;;
     bot_send_message env (mkOutbound (chat_id self) message "Markdown") ;;
     logger INFO "Successfully sent system status update" ;;
     ret true)
    (fun e =>
       logger ERROR ("Failed to send system status: " ++ str_of_exception e) ;;
       ret false).

(** [VoltageSpikeNotifier.test_connection]; [get_me] is what
    [await self.bot.get_me()] gives: the bot's user name, or the error
    raised. *)
Definition test_connection (get_me : outcome string) : M VoltageSpikeNotifier bool :=
  try_except
    (username <- lift_outcome get_me ;;
     logger INFO ("Bot connection successful: @" ++ username) ;;
     ret true)
    (fun e =>
       logger ERROR ("Bot connection failed: " ++ str_of_exception e) ;;
       ret false).

End WithEnv.

End TelegramNotifier.

(* ================================================================== *)
(** ** app.py *)

Module App.

Import TelegramNotifier.

(** An entry of [csv_data]: the dict with keys [timestamp], [current],
    [voltage].  A cell the CSV row lacks is [None]. *)
Record reading := mkReading {
  timestamp : option string;
  current : Q;
  voltage : Q
}.

(** The module globals. *)
Record globals := mkGlobals {
  telegram_notifier : option VoltageSpikeNotifier;
  csv_data : list reading;
  current_data_index : Z
}.

(** The module as imported. *)
Definition initial : globals := mkGlobals None [] 0.

Definition set_csv_data (l : list reading) (g : globals) : globals :=
  mkGlobals (telegram_notifier g) l (current_data_index g).

Definition set_current_data_index (i : Z) (g : globals) : globals :=
  mkGlobals (telegram_notifier g) (csv_data g) i.

(** A row as [csv.DictReader] yields it: column name to cell. *)
Definition csv_row : Type := list (string * option string).

(** What [open('dc_current_log.csv')] and the reader give. *)
Inductive source :=
| Unopenable (e : exception)
    (* open() raises: the file is missing or unreadable *)
| Opened (rows : list csv_row) (failure : option exception).
    (* the rows read in order; then the end of the file, or the error
       that stops the reader (decoding, csv.Error) *)

(** A Flask response: status code and JSON body. *)
Record response := mkResponse { status : Z; body : json }.

Definition jsonify (fields : list (string * json)) : response :=
  mkResponse 200 (JObj fields).

Definition json_of_cell (c : option string) : json :=
  match c with
  | Some s => JStr s
  | None => JNull
  end.

Definition json_of_reading (r : reading) : json :=
  JObj [ ("timestamp", json_of_cell (timestamp r));
         ("current", JFloat (current r));
         ("voltage", JFloat (voltage r)) ].

(** [row[key]] *)
Definition row_item (row : csv_row) (key : string) : outcome (option string) :=
  match dict_find row key with
  | Some cell => Return cell
  | None => Raise (Exc "KeyError" ("'" ++ key ++ "'"))
  end.

(** [data.get(key, dflt)] on what [get_json] returned. *)
Definition json_get (data : json) (key : string) (dflt : json) : outcome json :=
  match data with
  | JObj fields => Return (dict_get fields key dflt)
  | _ => Raise (Exc "AttributeError"
           ("'" ++ type_name data ++ "' object has no attribute 'get'"))
  end.

Fixpoint for_each {St A} (l : list A) (body : A -> M St unit) : M St unit :=
  match l with
  | [] => ret tt
  | x :: rest => body x ;; for_each rest body
  end.

Section WithEnv.

Variable env : environment.

(** [float(cell)] *)
Definition py_float (cell : option string) : outcome Q :=
  match cell with
  | Some s => float_of_str env s
  | None => Raise (Exc "TypeError"
              "float() argument must be a string or a real number, not 'NoneType'")
  end.

(** The body of [for row in reader]. *)
Definition load_row (row : csv_row) : M globals unit :=
  cell <- lift_outcome (row_item row "Current (A)") ;;
  current <- lift_outcome (py_float cell) ;;
  let voltage := (220 + current * 100)%Q in
  ts <- lift_outcome (row_item row "Timestamp") ;;
  modify (fun g => set_csv_data (csv_data g ++ [mkReading ts current voltage])%list g).

(** [load_csv_data] *)
Definition load_csv_data (src : source) : M globals unit :=
  modify (set_csv_data []) ;;
  try_except
    (match src with
     | Unopenable e => raise e
     | Opened rows failure =>
         for_each rows load_row ;;
         match failure with
         | Some e => raise e
         | None => ret tt
         end
     end ;;
     g <- get ;;
     print ("Loaded " ++ decimal (Z.of_nat (length (csv_data g)))
            ++ " data points from CSV"))
    (fun e =>
       print ("Error loading CSV data: " ++ str_of_exception e) ;;
       modify (set_csv_data [])).

(** [get_next_data_point] *)
Definition get_next_data_point : M globals (option reading) :=
  g <- get ;;
  match csv_data g with
  | [] => ret None
  | _ :: _ =>
      data_point <- lift_outcome (index (csv_data g) (current_data_index g)) ;;
      modify (set_current_data_index
                ((current_data_index g + 1) mod Z.of_nat (length (csv_data g)))) ;;
      ret (Some data_point)
  end.

(** [telegram_alert], the handler of POST /api/telegram-alert;
    [request_json] is what [request.get_json()] returns or raises. *)
Definition telegram_alert (request_json : outcome json) : M globals response :=
  try_except
    (data <- lift_outcome request_json ;;
     voltage <- lift_outcome (json_get data "voltage" (JInt 0)) ;;
     area <- lift_outcome (json_get data "area" (JStr "Unknown Area")) ;;
     severity <- lift_outcome (json_get data "severity" (JStr "MEDIUM")) ;;
     let success := true in
     print "🚨 VOLTAGE SPIKE ALERT (Telegram not configured):" ;;
     print ("   Voltage: " ++ py_format env voltage ++ "V") ;;
     print ("   Area: " ++ py_format env area) ;;
     print ("   Severity: " ++ py_format env severity) ;;
     now <- datetime_now env ;;
     print ("   Time: " ++ isoformat now) ;;
     ret (jsonify
            [ ("success", JBool success);
              ("message", JStr (if success then "Alert sent successfully"
                                else "Alert sent in demo mode")) ]))
    (fun e =>
       print ("Error handling telegram alert: " ++ str_of_exception e) ;;
       ret (mkResponse 500
              (JObj [ ("success", JBool false);
                      ("message", JStr "Error sending alert") ]))).

(** [get_voltage_data], the handler of GET /api/voltage-data. *)
Definition get_voltage_data : M globals response :=
  try_except
    (data_point <- get_next_data_point ;;
     match data_point with
     | Some d =>
         ret (jsonify
                [ ("timestamp", json_of_cell (timestamp d));
                  ("voltage", JFloat (voltage d));
                  ("current", JFloat (current d));
                  ("success", JBool true) ])
     | None =>
         u <- random_uniform env (-10) 10 ;;
         let voltage := (220 + u)%Q in
         now <- datetime_now env ;;
         c <- random_uniform env 0 (1 # 2) ;;
         ret (jsonify
                [ ("timestamp", JStr (strftime_HMS now));
                  ("voltage", JFloat voltage);
                  ("current", JFloat c);
                  ("success", JBool true) ])
     end)
    (fun e =>
       print ("Error getting voltage data: " ++ str_of_exception e) ;;
       ret (mkResponse 500
              (JObj [ ("success", JBool false);
                      ("message", JStr "Error retrieving data") ]))).

(** [get_csv_data], the handler of GET /api/csv-data. *)
Definition get_csv_data : M globals response :=
  try_except
    (g <- get ;;
     let recent_data :=
       if 100 <? Z.of_nat (length (csv_data g))
       then slice_from (csv_data g) (-100)
       else csv_data g in
     ret (jsonify
            [ ("data", JArr (map json_of_reading recent_data));
              ("success", JBool true) ]))
    (fun e =>
       print ("Error getting CSV data: " ++ str_of_exception e) ;;
       ret (mkResponse 500
              (JObj [ ("success", JBool false);
                      ("message", JStr "Error retrieving CSV data") ]))).

(** [status], the handler of GET /api/status. *)
Definition status_endpoint : M globals response :=
  g <- get ;;
  ret (jsonify
         [ ("status", JStr "online");
           ("telegram_configured",
            JBool (match telegram_notifier g with Some _ => true | None => false end));
           ("data_source",
            JStr (match csv_data g with [] => "Simulated" | _ :: _ => "CSV" end)) ]).

(** The API routes of the [@app.route] table; the two static routes only
    read files and are left out. *)
Inductive request :=
| GET_status
| POST_telegram_alert (body : outcome json)
| GET_voltage_data
| GET_csv_data.

Definition dispatch (r : request) : M globals response :=
  match r with
  | GET_status => status_endpoint
  | POST_telegram_alert body => telegram_alert body
  | GET_voltage_data => get_voltage_data
  | GET_csv_data => get_csv_data
  end.

(** [app.run(...)] for as long as it serves the given requests, one after
    the other. *)
Fixpoint serve (requests : list request) : M globals (list response) :=
  match requests with
  | [] => ret []
  | r :: rest =>
      resp <- dispatch r ;;
      resps <- serve rest ;;
      ret (resp :: resps)
  end.

(** The [if __name__ == '__main__'] block. *)
Definition main (src : source) (requests : list request) : M globals (list response) :=
  load_csv_data src ;;
  print "Starting Flask server..." ;;
  g <- get ;;
  print ("Loaded " ++ decimal (Z.of_nat (length (csv_data g))) ++ " data points from CSV") ;;
  serve requests.

End WithEnv.

End App.

(* ================================================================== *)
(** ** start.py *)

Module Start.

(** What the start-up script has done besides printing. *)
Record process := mkProcess {
  subprocess_calls : list (list string);   (* argv of each subprocess.check_call *)
  app_runs : nat                           (* calls of app.run *)
}.

(** [a < b] on tuples of integers. *)
Fixpoint tuple_lt (a b : list Z) : bool :=
  match a, b with
  | _, [] => false
  | [], _ :: _ => true
  | x :: a', y :: b' =>
      if x <? y then true
      else if y <? x then false
      else tuple_lt a' b'
  end.

(** Whitespace as [str.split()] sees it, within ASCII. *)
Definition is_space (c : ascii) : bool :=
  let n := nat_of_ascii c in
  ((9 <=? n)%nat && (n <=? 13)%nat) || ((28 <=? n)%nat && (n <=? 32)%nat).

Fixpoint skip_spaces (s : string) : string :=
  match s with
  | String c rest => if is_space c then skip_spaces rest else s
  | EmptyString => EmptyString
  end.

Fixpoint take_word (s : string) : string :=
  match s with
  | String c rest => if is_space c then EmptyString else String c (take_word rest)
  | EmptyString => EmptyString
  end.

(** [s.split()[0]] *)
Definition split_first (s : string) : outcome string :=
  match skip_spaces s with
  | EmptyString => Raise (Exc "IndexError" "list index out of range")
  | word => Return (take_word word)
  end.

(** [sep.join(items)] *)
Fixpoint join (sep : string) (items : list string) : string :=
  match items with
  | [] => EmptyString
  | [x] => x
  | x :: rest => x ++ sep ++ join sep rest
  end.

(** [sys.exit(code)] *)
Definition sys_exit {St A} (code : Z) : M St A :=
  raise (Exc "SystemExit" (decimal code)).

(** The classes that derive from [BaseException] only; [except Exception]
    lets them pass. *)
Definition is_exception (e : exception) : bool :=
  match e with
  | Exc cls _ =>
      negb (existsb (String.eqb cls) ["KeyboardInterrupt"; "SystemExit"; "GeneratorExit"])
  end.

Definition has_class (cls : string) (e : exception) : bool :=
  match e with
  | Exc c _ => String.eqb c cls
  end.

(** [check_python_version]; [version_info] is the numeric start of
    [sys.version_info] (major, minor, micro), [version] is [sys.version]. *)
Definition check_python_version (version_info : list Z) (version : string)
  : M process bool :=
  if tuple_lt version_info [3; 8] then
    print "❌ Python 3.8 or higher is required!" ;;
    print ("   Current version: " ++ version) ;;
    ret false
  else
    first <- lift_outcome (split_first version) ;;
    print ("✅ Python version: " ++ first) ;;
    ret true.

Definition required_packages : list string :=
  ["flask"; "flask_cors"; "telegram"; "werkzeug"].

(** The loop of [check_dependencies]; [find_spec] tells whether
    [importlib.util.find_spec] finds the package. *)
Fixpoint collect_missing (find_spec : string -> bool) (packages : list string)
  (missing_packages : list string) : M process (list string) :=
  match packages with
  | [] => ret missing_packages
  | package :: rest =>
      if find_spec package then
        print ("✅ " ++ package ++ " is installed") ;;
        collect_missing find_spec rest missing_packages
      else
        collect_missing find_spec rest (missing_packages ++ [package])%list
  end.

(** [subprocess.check_call(argv)]; [failure] is what it raises, if
    anything. *)
Definition check_call (argv : list string) (failure : option exception)
  : M process unit :=
  fun s w =>
    (match failure with
     | None => Return tt
     | Some e => Raise e
     end,
     mkProcess (subprocess_calls s ++ [argv])%list (app_runs s), w).

(** [check_dependencies]; [executable] is [sys.executable], [pip] is how
    the pip run ends. *)
Definition check_dependencies (find_spec : string -> bool) (executable : string)
  (pip : option exception) : M process bool :=
  missing_packages <- collect_missing find_spec required_packages [] ;;
  match missing_packages with
  | _ :: _ =>
      print (nl ++ "❌ Missing packages: " ++ join ", " missing_packages) ;;
      print "📦 Installing missing packages..." ;;
      try_except
        (check_call [executable; "-m"; "pip"; "install"; "-r"; "requirements.txt"] pip ;;
         print "✅ Dependencies installed successfully!" ;;
         ret true)
        (fun e =>
           if has_class "CalledProcessError" e then
             print "❌ Failed to install dependencies!" ;;
             print "   Please run: pip install -r requirements.txt" ;;
             ret false
           else raise e)
  | [] => ret true
  end.

(** Truthiness of what [os.getenv] returns. *)
Definition truthy_env (v : option string) : bool :=
  match v with
  | Some EmptyString => false
  | Some _ => true
  | None => false
  end.

Definition env_is (v : option string) (s : string) : bool :=
  match v with
  | Some x => String.eqb x s
  | None => false
  end.

(** [check_telegram_config] *)
Definition check_telegram_config (getenv : string -> option string) : M process bool :=
  let bot_token := getenv "TELEGRAM_BOT_TOKEN" in
  let chat_id := getenv "TELEGRAM_CHAT_ID" in
  if negb (truthy_env bot_token) || env_is bot_token "YOUR_BOT_TOKEN_HERE" then
    print "⚠️  Telegram not configured" ;;
    print "   Set TELEGRAM_BOT_TOKEN environment variable" ;;
    ret false
  else if negb (truthy_env chat_id) || env_is chat_id "YOUR_CHAT_ID_HERE" then
    print "⚠️  Telegram not configured" ;;
    print "   Set TELEGRAM_CHAT_ID environment variable" ;;
    ret false
  else
    print "✅ Telegram configured" ;;
    ret true.

Definition banner : string :=
  nl
  ++ "    ⚡ Voltage Spike Monitor ⚡" ++ nl
  ++ "    ============================" ++ nl
  ++ "    " ++ nl
  ++ "    A beautiful Apple-style website that monitors voltage spikes" ++ nl
  ++ "    and sends Telegram notifications when critical levels are detected." ++ nl
  ++ "    " ++ nl
  ++ "    ".

Definition instructions : string :=
  nl
  ++ "    📱 Telegram Setup (Optional):" ++ nl
  ++ "    " ++ nl
  ++ "    1. Create a bot:" ++ nl
  ++ "       - Open Telegram and search for @BotFather" ++ nl
  ++ "       - Send /newbot command" ++ nl
  ++ "       - Follow instructions to create your bot" ++ nl
  ++ "       - Save the bot token" ++ nl
  ++ "    " ++ nl
  ++ "    2. Get your chat ID:" ++ nl
  ++ "       - Search for @userinfobot in Telegram" ++ nl
  ++ "       - Send any message to get your chat ID" ++ nl
  ++ "    " ++ nl
  ++ "    3. Set environment variables:" ++ nl
  ++ "       Windows:  set TELEGRAM_BOT_TOKEN=your_token_here" ++ nl
  ++ "       macOS/Linux: export TELEGRAM_BOT_TOKEN=your_token_here" ++ nl
  ++ "       " ++ nl
  ++ "       Windows:  set TELEGRAM_CHAT_ID=your_chat_id_here" ++ nl
  ++ "       macOS/Linux: export TELEGRAM_CHAT_ID=your_chat_id_here" ++ nl
  ++ "    " ++ nl
  ++ "    🌐 Access the application at: http://localhost:5000" ++ nl
  ++ "    ".
(** [print_banner] *)
Definition print_banner : M process unit := print banner.

(** [print_instructions] *)
Definition print_instructions : M process unit := print instructions.

Definition rule : string := repeat_char "="%char 50.

(** [app.run(...)]: it is entered, and ends as [app_end] says. *)
Definition app_run (app_end : option exception) : M process unit :=
  fun s w =>
    (match app_end with
     | None => Return tt
     | Some e => Raise e
     end,
     mkProcess (subprocess_calls s) (S (app_runs s)), w).

(** [main]; [import_app] is what [from app import app] raises, if
    anything. *)
Definition main (version_info : list Z) (version : string)
  (find_spec : string -> bool) (executable : string) (pip : option exception)
  (getenv : string -> option string)
  (import_app app_end : option exception) : M process unit :=
  print_banner ;;
  version_ok <- check_python_version version_info version ;;
  if negb version_ok then sys_exit 1 else
  dependencies_ok <- check_dependencies find_spec executable pip ;;
  if negb dependencies_ok then sys_exit 1 else
  telegram_configured <- check_telegram_config getenv ;;
  print (nl ++ rule) ;;
  print "🚀 Starting Voltage Spike Monitor..." ;;
  print rule ;;
  (if negb telegram_configured then
     print (nl ++ "⚠️  Running without Telegram notifications") ;;
     print "   Alerts will be logged to console only"
   else ret tt) ;;
  print (nl ++ "🌐 Starting web server...") ;;
  print "📊 Frontend will be available at: http://localhost:5000" ;;
  print "🔧 API endpoints:" ;;
  print "   - GET  /api/status" ;;
  print "   - POST /api/telegram-alert" ;;
  print "   - GET  /api/test-telegram" ;;
  print "   - GET  /api/voltage-data" ;;
  (if negb telegram_configured then print_instructions else ret tt) ;;
  print (nl ++ rule) ;;
  print "Press Ctrl+C to stop the server" ;;
  print (rule ++ nl) ;;
  try_except
    (match import_app with
     | None => ret tt
     | Some e => raise e
     end ;;
     app_run app_end)
    (fun e =>
       if has_class "KeyboardInterrupt" e then
         print (nl ++ nl ++ "👋 Shutting down Voltage Spike Monitor...") ;;
         print "Thanks for using our application! ⚡"
       else if is_exception e then
         print (nl ++ "❌ Error starting application: " ++ str_of_exception e) ;;
         sys_exit 1
       else raise e).

End Start.

(* ================================================================== *)
(** ** demo.py *)

Module Demo.

Import App.

(** A [requests] response: its status code, and what [response.json()]
    returns or raises. *)
Record reply := mkReply { status_code : Z; reply_json : outcome json }.

Definition events : list (list (string * json)) :=
  [ [ ("voltage", JFloat (2955 # 10)); ("area", JStr "Istanbul, Kadıköy");
      ("severity", JStr "HIGH") ];
    [ ("voltage", JFloat (3102 # 10)); ("area", JStr "Istanbul, Beşiktaş");
      ("severity", JStr "CRITICAL") ];
    [ ("voltage", JFloat (2858 # 10)); ("area", JStr "Istanbul, Şişli");
      ("severity", JStr "HIGH") ];
    [ ("voltage", JFloat (2753 # 10)); ("area", JStr "Istanbul, Üsküdar");
      ("severity", JStr "MEDIUM") ];
    [ ("voltage", JFloat (3201 # 10)); ("area", JStr "Istanbul, Fatih");
      ("severity", JStr "CRITICAL") ] ].

(** [d[key]] *)
Definition item (d : list (string * json)) (key : string) : outcome json :=
  match dict_find d key with
  | Some v => Return v
  | None => Raise (Exc "KeyError" ("'" ++ key ++ "'"))
  end.

(** [isinstance(e, requests.exceptions.ConnectionError)]: the class and
    its subclasses in [requests]. *)
Definition is_connection_error (e : exception) : bool :=
  match e with
  | Exc cls _ =>
      existsb (String.eqb cls) ["ConnectionError"; "ProxyError"; "SSLError"; "ConnectTimeout"]
  end.

Section WithEnv.

Variable env : environment.

(** [simulate_voltage_spike]; [choice] is the position [random.choice]
    picks in [events], [post] is [requests.post] to
    /api/telegram-alert with the given JSON body.  The [except] clauses
    take [ConnectionError] and then [Exception]; what derives from
    [BaseException] only passes through. *)
Definition simulate_voltage_spike (choice : Z) (post : json -> outcome reply)
  : M unit bool :=
  event <- lift_outcome (index events choice) ;;
  voltage <- lift_outcome (item event "voltage") ;;
  area <- lift_outcome (item event "area") ;;
  now <- datetime_now env ;;
  let data := JObj [ ("voltage", voltage); ("area", area);
                     ("timestamp", JStr (isoformat now)) ] in
  try_except
    (response <- lift_outcome (post data) ;;
     (if status_code response =? 200 then
        result <- lift_outcome (reply_json response) ;;
        print ("✅ Spike simulated: " ++ py_format env voltage ++ "V in "
               ++ py_format env area) ;;
        st <- lift_outcome (json_get result "status" (JStr "unknown")) ;;
        print ("   Status: " ++ py_format env st) ;;
        msg <- lift_outcome (json_get result "message" (JStr "No message")) ;;
        print ("   Message: " ++ py_format env msg)
      else
        print ("❌ Failed to send spike: " ++ decimal (status_code response))) ;;
     ret true)
    (fun e =>
       if is_connection_error e then
         print "❌ Cannot connect to server. Make sure the Flask app is running!" ;;
         ret false
       else if Start.is_exception e then
         print ("❌ Error: " ++ str_of_exception e) ;;
         ret false
       else raise e).

(** [check_server_status]; [get] is [requests.get] on /api/status. *)
Definition check_server_status (get : outcome reply) : M unit bool :=
  try_except
    (response <- lift_outcome get ;;
     if status_code response =? 200 then
       status <- lift_outcome (reply_json response) ;;
       print "✅ Server is running" ;;
       st <- lift_outcome (json_get status "status" (JStr "unknown")) ;;
       print ("   Status: " ++ py_format env st) ;;
       tc <- lift_outcome (json_get status "telegram_configured" (JBool false)) ;;
       print ("   Telegram configured: " ++ py_format env tc) ;;
       ret true
     else
       print ("❌ Server returned status code: " ++ decimal (status_code response)) ;;
       ret false)
    (fun e =>
       if is_connection_error e then
         print "❌ Server is not running!" ;;
         print "   Please start the server first: python start.py" ;;
         ret false
       else if Start.is_exception e then
         print ("❌ Error checking server: " ++ str_of_exception e) ;;
         ret false
       else raise e).

End WithEnv.

End Demo.

(* ================================================================== *)
(** ** Vocabulary of the properties *)

Import TelegramNotifier App.

(** Runs a computation [k] times in a row and collects what it returned. *)
Fixpoint call_n {St A} (k : nat) (m : M St A) : M St (list A) :=
  match k with
  | O => ret []
  | S k' => a <- m ;; rest <- call_n k' m ;; ret (a :: rest)
  end.

(** The cursor invariant of the feed. *)
Definition cursor_ok (g : globals) : Prop :=
  0 <= current_data_index g < Z.of_nat (length (csv_data g)).

Definition digit_value (c : ascii) : option Z :=
  let n := Z.of_nat (nat_of_ascii c) in
  if (48 <=? n) && (n <=? 57) then Some (n - 48) else None.

Definition two_digits (a b : ascii) : option Z :=
  match digit_value a, digit_value b with
  | Some x, Some y => Some (10 * x + y)
  | _, _ => None
  end.

(** Reads a string of the shape [dd:dd:dd] back into its three numbers. *)
Definition parse_HMS (s : string) : option (Z * Z * Z) :=
  match s with
  | String h1 (String h2 (String c1 (String m1 (String m2 (String c2
      (String s1 (String s2 EmptyString))))))) =>
      if Ascii.eqb c1 ":" && Ascii.eqb c2 ":" then
        match two_digits h1 h2, two_digits m1 m2, two_digits s1 s2 with
        | Some h, Some m, Some s => Some (h, m, s)
        | _, _, _ => None
        end
      else None
  | _ => None
  end.

(** The check that a number prints as two digits that read back as it. *)
Definition two_digit_ok (n : Z) : bool :=
  match zfill 2 (decimal n) with
  | String a (String b EmptyString) =>
      match two_digits a b with
      | Some m => m =? n
      | None => false
      end
  | _ => false
  end.

(** The time-of-day fields Python's [datetime] guarantees. *)
Definition valid_time (d : datetime) : Prop :=
  0 <= hour d < 24 /\ 0 <= minute d < 60 /\ 0 <= second d < 60.

(** [random.random()] lies in [0, 1). *)
Definition random_in_range (env : environment) : Prop :=
  forall k, (0 <= random_at env k)%Q /\ (random_at env k < 1)%Q.

(** A row that [load_csv_data] can turn into a reading. *)
Definition row_ok (env : environment) (row : csv_row) : bool :=
  match row_item row "Current (A)" with
  | Return cell =>
      match py_float env cell, row_item row "Timestamp" with
      | Return _, Return _ => true
      | _, _ => false
      end
  | Raise _ => false
  end.

(** A source that opens, reads to its end and has only such rows; a
    malformed source is one that is not well formed. *)
Definition well_formed (env : environment) (src : source) : bool :=
  match src with
  | Unopenable _ => false
  | Opened rows None => forallb (row_ok env) rows
  | Opened _ (Some _) => false
  end.

(** The error the conversion of a row raises, if any: the first of the
    lookup of the current, its conversion and the lookup of the timestamp
    to fail. *)
Definition row_error (env : environment) (row : csv_row) : option exception :=
  match row_item row "Current (A)" with
  | Raise e => Some e
  | Return cell =>
      match py_float env cell with
      | Raise e => Some e
      | Return _ =>
          match row_item row "Timestamp" with
          | Raise e => Some e
          | Return _ => None
          end
      end
  end.

(** The error of the first row that has one. *)
Fixpoint rows_error (env : environment) (rows : list csv_row) : option exception :=
  match rows with
  | [] => None
  | row :: rest =>
      match row_error env row with
      | Some e => Some e
      | None => rows_error env rest
      end
  end.

(** The error a load of the source runs into, if any: that of [open], of
    the first row that does not convert, or of the reader after the
    rows. *)
Definition first_error (env : environment) (src : source) : option exception :=
  match src with
  | Unopenable e => Some e
  | Opened rows failure =>
      match rows_error env rows with
      | Some e => Some e
      | None => failure
      end
  end.

(** The last [n] elements of a list, in their order. *)
Definition last_n {A} (n : nat) (l : list A) : list A :=
  skipn (length l - n) l.

(** The readings a response of [get_csv_data] carries. *)
Definition data_items (r : response) : list json :=
  match body r with
  | JObj fields =>
      match dict_find fields "data" with
      | Some (JArr items) => items
      | _ => []
      end
  | _ => []
  end.

Definition result_of {St A} (x : outcome A * St * io) : outcome A := fst (fst x).
Definition state_of {St A} (x : outcome A * St * io) : St := snd (fst x).
Definition io_of {St A} (x : outcome A * St * io) : io := snd x.

(** The Cooling state: an alert time is recorded and the clock reads less
    than [alert_cooldown] seconds past it. *)
Definition cooling (self : VoltageSpikeNotifier) (now : datetime) : bool :=
  match last_alert_time self with
  | Some last => Qltb (total_seconds (sub now last)) (inject_Z (alert_cooldown self))
  | None => false
  end.

(** The outside once the cooldown check has let a send through: the check
    reads the clock when an alert time is recorded. *)
Definition after_gate (self : VoltageSpikeNotifier) (w : io) : io :=
  match last_alert_time self with
  | Some _ => io_tick w
  | None => w
  end.

(** The message a send that is let through hands to the transport. *)
Definition alert_outbound (env : environment) (self : VoltageSpikeNotifier)
  (voltage : Q) (area severity : string)
  (additional_info : option (list (string * json))) (now : datetime) : outbound :=
  mkOutbound (chat_id self)
    (add_additional_info env
       (alert_message (dict_get severity_config severity severity_config_HIGH)
          severity voltage area now)
       additional_info)
    "Markdown".

Definition recognized (severity : string) : bool :=
  existsb (String.eqb severity) ["LOW"; "MEDIUM"; "HIGH"; "CRITICAL"].

(** A spike event as the notifier receives it. *)
Record spike_event := mkEvent {
  ev_voltage : Q;
  ev_area : option string;
  ev_severity : option string;
  ev_info : option (list (string * json))
}.

Definition send_event (env : environment) (ev : spike_event)
  : M VoltageSpikeNotifier bool :=
  send_voltage_spike_alert env (ev_voltage ev) (ev_area ev) (ev_severity ev) (ev_info ev).

(** One send per event, in order. *)
Fixpoint send_all (env : environment) (events : list spike_event)
  : M VoltageSpikeNotifier (list bool) :=
  match events with
  | [] => ret []
  | ev :: rest =>
      r <- send_event env ev ;;
      rs <- send_all env rest ;;
      ret (r :: rs)
  end.

(** The reading a row stands for, or the error its conversion raises. *)
Definition reading_of_row (env : environment) (row : csv_row) : outcome reading :=
  match row_item row "Current (A)" with
  | Return cell =>
      match py_float env cell with
      | Return c =>
          match row_item row "Timestamp" with
          | Return ts => Return (mkReading ts c (220 + c * 100)%Q)
          | Raise e => Raise e
          end
      | Raise e => Raise e
      end
  | Raise e => Raise e
  end.

(** The readings of the rows before the first one that fails, and its
    error. *)
Fixpoint readings_of_rows (env : environment) (rows : list csv_row)
  : list reading * option exception :=
  match rows with
  | [] => ([], None)
  | row :: rest =>
      match reading_of_row env row with
      | Return r =>
          let (l, e) := readings_of_rows env rest in (r :: l, e)
      | Raise e => ([], Some e)
      end
  end.

(** What a source loads to: its readings when every row converts and the
    reader reaches the end, nothing otherwise. *)
Definition loaded (env : environment) (src : source) : list reading :=
  match src with
  | Unopenable _ => []
  | Opened _ (Some _) => []
  | Opened rows None =>
      match readings_of_rows env rows with
      | (l, None) => l
      | (_, Some _) => []
      end
  end.

(** A reading carries the timestamp of the row it was made from and the
    current [float] converted its cell to.  (Nothing is said of the
    voltage, which the code derives in floating point.) *)
Definition reading_matches (env : environment) (row : csv_row) (r : reading) : Prop :=
  row_item row "Timestamp" = Return (timestamp r)
  /\ (exists cell,
        row_item row "Current (A)" = Return cell
        /\ py_float env cell = Return (current r)).

(** A field of the JSON object a response carries. *)
Definition response_field (resp : response) (key : string) : option json :=
  match body resp with
  | JObj fields => dict_find fields key
  | _ => None
  end.

(** A voltage answer that carries the timestamp and the current of a
    row. *)
Definition serves_row (env : environment) (row : csv_row) (resp : response) : Prop :=
  status resp = 200
  /\ response_field resp "success" = Some (JBool true)
  /\ (exists ts,
        row_item row "Timestamp" = Return ts
        /\ response_field resp "timestamp" = Some (json_of_cell ts))
  /\ (exists cell c,
        row_item row "Current (A)" = Return cell
        /\ py_float env cell = Return c
        /\ response_field resp "current" = Some (JFloat c)).

(** The response of [get_voltage_data] for a recorded reading. *)
Definition reading_response (r : reading) : response :=
  jsonify [ ("timestamp", json_of_cell (timestamp r));
            ("voltage", JFloat (voltage r));
            ("current", JFloat (current r));
            ("success", JBool true) ].

Definition error_response (message : string) : response :=
  mkResponse 500 (JObj [ ("success", JBool false); ("message", JStr message) ]).

(** The feed as it is read from position [i] on, once around. *)
Definition rotate {A} (i : nat) (l : list A) : list A :=
  (skipn i l ++ firstn i l)%list.

(** The invariant of the feed: the cursor is in range unless the feed is
    empty. *)
Definition feed_ok (g : globals) : Prop :=
  csv_data g = [] \/ cursor_ok g.

(** The GET routes are answered with 200; only the alert route may
    answer otherwise. *)
Definition answered_ok (r : request) (resp : response) : Prop :=
  match r with
  | POST_telegram_alert _ => True
  | _ => status resp = 200
  end.

Definition index_error : exception := Exc "IndexError" "list index out of range".

(** What every handler has in common: it answers (200 or 500) without
    raising, leaves the loaded readings and the notifier slot alone, makes
    no delivery attempt and logs nothing; it keeps the feed invariant, and
    under it the GET routes answer 200. *)
Definition handler_ok (r : request) (g : globals) (w : io)
  (x : outcome response * globals * io) : Prop :=
  exists resp g' w',
    x = (Return resp, g', w')
    /\ (status resp = 200 \/ status resp = 500)
    /\ csv_data g' = csv_data g
    /\ telegram_notifier g' = telegram_notifier g
    /\ outbox w' = outbox w
    /\ logged w' = logged w
    /\ (feed_ok g -> feed_ok g' /\ answered_ok r resp).

(** The message a status update hands to the transport. *)
Definition status_outbound (self : VoltageSpikeNotifier) (status : option string)
  (voltage : option Q) (uptime : option string) (now : datetime) : outbound :=
  mkOutbound (chat_id self)
    (status_message (default "ONLINE" status) voltage uptime now) "Markdown".

(** A clock that never runs backwards. *)
Definition clock_monotone (env : environment) : Prop :=
  forall i j, (i <= j)%nat -> 0 <= sub (now_at env j) (now_at env i).

(** All clock readings numbered from [lo] up to [hi] (excluded) lie less
    than [cooldown] seconds after the readings before them. *)
Definition one_window (env : environment) (cooldown : Z) (lo hi : nat) : Prop :=
  forall i j, (lo <= i)%nat -> (i <= j)%nat -> (j < hi)%nat ->
    (total_seconds (sub (now_at env j) (now_at env i)) < inject_Z cooldown)%Q.

(** The place of a severity in LOW < MEDIUM < HIGH < CRITICAL. *)
Definition severity_rank (severity : string) : Z :=
  if String.eqb severity "LOW" then 0
  else if String.eqb severity "MEDIUM" then 1
  else if String.eqb severity "HIGH" then 2
  else if String.eqb severity "CRITICAL" then 3
  else -1.

(** Microseconds from the start of day 0 of the calendar. *)
Definition microseconds (d : datetime) : Z :=
  (toordinal d * 86400 + (hour d * 3600 + minute d * 60 + second d)) * 1000000
  + microsecond d.

(** The client's view of a response of the application. *)
Definition reply_of (r : response) : Demo.reply :=
  Demo.mkReply (status r) (Return (body r)).

(** [requests.post] on /api/telegram-alert of an application in state [g]. *)
Definition post_to_app (env : environment) (g : globals) (w : io) (body : json)
  : outcome Demo.reply :=
  match result_of (telegram_alert env (Return body) g w) with
  | Return resp => Return (reply_of resp)
  | Raise e => Raise e
  end.

(** The body [simulate_voltage_spike] posts. *)
Definition spike_body (voltage area : json) (now : datetime) : json :=
  JObj [ ("voltage", voltage); ("area", area); ("timestamp", JStr (isoformat now)) ].

(** Printing several lines in a row. *)
Definition io_prints (lines : list string) (w : io) : io :=
  fold_left (fun w line => io_print line w) lines w.

Definition missing_packages (find_spec : string -> bool) : list string :=
  filter (fun package => negb (find_spec package)) Start.required_packages.

Definition installed_lines (find_spec : string -> bool) : list string :=
  map (fun package => "✅ " ++ package ++ " is installed")
      (filter find_spec Start.required_packages).

Definition pip_argv (executable : string) : list string :=
  [executable; "-m"; "pip"; "install"; "-r"; "requirements.txt"].

(** An environment variable that is set, not empty and not the
    placeholder. *)
Definition usable (v : option string) (placeholder : string) : Prop :=
  exists s, v = Some s /\ s <> EmptyString /\ s <> placeholder.

(** The dependency check passes: nothing is missing, or pip ran through. *)
Definition dependencies_pass (find_spec : string -> bool) (pip : option exception)
  : bool :=
  match missing_packages find_spec, pip with
  | [], _ => true
  | _ :: _, None => true
  | _ :: _, Some _ => false
  end.

Definition absent {A} (o : option A) : bool :=
  match o with
  | Some _ => false
  | None => true
  end.

(** What the application answers while nothing has been loaded: the
    status names the simulated source and no notifier, a voltage request
    gets a generated reading. *)
Definition answered_as_imported (r : request) (resp : response) : Prop :=
  match r with
  | GET_status =>
      resp = jsonify [ ("status", JStr "online");
                       ("telegram_configured", JBool false);
                       ("data_source", JStr "Simulated") ]
  | GET_voltage_data =>
      exists ts v c,
        resp = jsonify [ ("timestamp", JStr ts); ("voltage", JFloat v);
                         ("current", JFloat c); ("success", JBool true) ]
  | GET_csv_data =>
      resp = jsonify [ ("data", JArr []); ("success", JBool true) ]
  | POST_telegram_alert _ => True
  end.

(** *** Sample inputs *)

(** A clock that advances one second per reading. *)
Definition sample_clock (k : nat) : datetime :=
  mkDatetime 2024 5 17 9 30 (Z.of_nat k) 0.

Definition sample_float (s : string) : outcome Q :=
  if String.eqb s "0.12" then Return (12 # 100)
  else if String.eqb s "0.5" then Return (1 # 2)
  else Raise (Exc "ValueError" ("could not convert string to float: '" ++ s ++ "'")).

(** A destination that accepts every message, and one that refuses all. *)
Definition env_up : environment :=
  mkEnv sample_clock (fun _ => 1 # 4) (fun _ _ => None) sample_float (fun _ => "?").

Definition env_down : environment :=
  mkEnv sample_clock (fun _ => 1 # 4)
        (fun _ _ => Some (Exc "NetworkError" "Bad Gateway")) sample_float (fun _ => "?").

Definition io0 : io := mkIO [] [] [] 0 0.

Definition notifier0 : VoltageSpikeNotifier := init "123:abc" "42".

(** A notifier whose last alert went out a minute before [sample_clock]
    starts. *)
Definition alerted_at : datetime := mkDatetime 2024 5 17 9 29 0 0.

Definition notifier_alerted : VoltageSpikeNotifier :=
  set_last_alert_time (Some alerted_at) notifier0.

(** A notifier whose last alert went out exactly five minutes before
    [sample_clock] starts. *)
Definition notifier_alerted_300s_ago : VoltageSpikeNotifier :=
  set_last_alert_time (Some (mkDatetime 2024 5 17 9 25 0 0)) notifier0.

Definition spike_295 : spike_event :=
  mkEvent (2955 # 10) (Some "Kadikoy") (Some "HIGH") None.

Definition source_missing : source :=
  Unopenable (Exc "FileNotFoundError"
                "[Errno 2] No such file or directory: 'dc_current_log.csv'").

Definition source_one_row : source :=
  Opened [ [ ("Timestamp", Some "10:00:00"); ("Current (A)", Some "0.12") ] ] None.

(** The second row has no parseable current. *)
Definition source_bad_second_row : source :=
  Opened [ [ ("Timestamp", Some "10:00:00"); ("Current (A)", Some "0.12") ];
           [ ("Timestamp", Some "10:00:01"); ("Current (A)", Some "n/a") ] ] None.

Definition reading_a : reading := mkReading (Some "10:00:00") (12 # 100) 232.
Definition reading_b : reading := mkReading (Some "10:00:01") (1 # 2) 270.

(** A feed of two readings whose cursor stands on the second. *)
Definition feed_ab_at_1 : globals := mkGlobals None [reading_a; reading_b] 1.

(* ================================================================== *)
(** ** The cyclic feed reader *)

Lemma index_in_range {A} (l : list A) (i : Z) (x : A) :
  0 <= i -> nth_error l (Z.to_nat i) = Some x -> index l i = Return x.
Proof.
  intros Hi Hx. unfold index.
  assert (Hlt : (Z.to_nat i < length l)%nat).
  { apply nth_error_Some. rewrite Hx. discriminate. }
  replace (i <? 0) with false by (symmetry; apply Z.ltb_ge; lia).
  replace (0 <=? i) with true by (symmetry; apply Z.leb_le; lia).
  replace (i <? Z.of_nat (length l)) with true by (symmetry; apply Z.ltb_lt; lia).
  cbn. rewrite Hx. reflexivity.
Qed.

Lemma get_next_data_point_step (g : globals) (w : io) (r : reading) :
  0 <= current_data_index g ->
  nth_error (csv_data g) (Z.to_nat (current_data_index g)) = Some r ->
  get_next_data_point g w =
    (Return (Some r),
     set_current_data_index
       ((current_data_index g + 1) mod Z.of_nat (length (csv_data g))) g,
     w).
Proof.
  intros Hi Hr. unfold get_next_data_point, bind, get.
  destruct (csv_data g) as [|x xs] eqn:E.
  - destruct (Z.to_nat (current_data_index g)); discriminate.
  - unfold lift_outcome. rewrite (index_in_range _ _ r Hi Hr). reflexivity.
Qed.

Lemma cursor_ok_reading (g : globals) :
  cursor_ok g -> exists r, nth_error (csv_data g) (Z.to_nat (current_data_index g)) = Some r.
Proof.
  intros [H0 H1].
  destruct (nth_error (csv_data g) (Z.to_nat (current_data_index g))) eqn:E.
  - eauto.
  - apply nth_error_None in E. lia.
Qed.

Lemma cursor_ok_advance (g : globals) :
  cursor_ok g ->
  cursor_ok (set_current_data_index
               ((current_data_index g + 1) mod Z.of_nat (length (csv_data g))) g).
Proof.
  intros [H0 H1]. unfold cursor_ok. cbn.
  apply Z.mod_pos_bound. lia.
Qed.

(** After [k] calls from a cursor [i] the [j]-th call has returned the
    reading at [(i + j) mod L], and the cursor stands at [(i + k) mod L]. *)
Lemma call_n_get_next (k : nat) : forall (g : globals) (w : io),
  cursor_ok g ->
  exists rs,
    call_n k get_next_data_point g w =
      (Return rs,
       set_current_data_index
         ((current_data_index g + Z.of_nat k) mod Z.of_nat (length (csv_data g))) g,
       w)
    /\ length rs = k
    /\ forall j, (j < k)%nat ->
         nth_error rs j =
           Some (nth_error (csv_data g)
                   (Z.to_nat ((current_data_index g + Z.of_nat j)
                              mod Z.of_nat (length (csv_data g))))).
Proof.
  induction k as [|k IH]; intros g w Hok.
  - exists []. cbn. repeat split.
    + unfold ret. destruct g as [tn l i]. unfold set_current_data_index. cbn.
      destruct Hok as [H0 H1]. cbn in *.
      rewrite Z.add_0_r, Z.mod_small by lia. reflexivity.
    + intros j Hj. lia.
  - destruct (cursor_ok_reading g Hok) as [r Hr].
    pose proof (cursor_ok_advance g Hok) as Hok'.
    pose proof Hok as [H0 H1].
    set (L := Z.of_nat (length (csv_data g))) in *.
    destruct (IH (set_current_data_index ((current_data_index g + 1) mod L) g) w Hok')
      as (rs & Hrun & Hlen & Hnth).
    exists (Some r :: rs). repeat split.
    + cbn [call_n]. unfold bind at 1.
      rewrite (get_next_data_point_step g w r H0 Hr). fold L.
      unfold bind at 1. rewrite Hrun. unfold ret. cbn.
      unfold set_current_data_index. cbn. fold L.
      rewrite Zplus_mod_idemp_l.
      replace (current_data_index g + 1 + Z.of_nat k)
        with (current_data_index g + Z.pos (Pos.of_succ_nat k)) by lia.
      reflexivity.
    + cbn. lia.
    + intros [|j] Hj.
      * cbn [nth_error]. rewrite Z.add_0_r, Z.mod_small by (fold L; lia).
        rewrite Hr. reflexivity.
      * cbn [nth_error]. rewrite Hnth by lia. cbn. fold L.
        rewrite Zplus_mod_idemp_l.
        replace (current_data_index g + 1 + Z.of_nat j)
          with (current_data_index g + Z.of_nat (S j)) by lia.
        reflexivity.
Qed.

(** C6. On a non-empty feed whose cursor satisfies the invariant,
    [get_next_data_point] returns the reading at the cursor without raising
    and writes the cursor, and only the cursor: it becomes the next
    position modulo the length, which satisfies the invariant again.  Of
    [L + 1] calls in a row the [j]-th returns the reading [j] places after
    the cursor, counted cyclically, so the first and the last return the
    same reading; after them the cursor stands one place further. *)
Theorem C6_next_is_cyclic (g : globals) (w : io) :
  csv_data g <> [] ->
  cursor_ok g ->
  let L := length (csv_data g) in
  let g1 := set_current_data_index ((current_data_index g + 1) mod Z.of_nat L) g in
  exists r rs gL,
    nth_error (csv_data g) (Z.to_nat (current_data_index g)) = Some r
    /\ get_next_data_point g w = (Return (Some r), g1, w)
    /\ cursor_ok g1
    /\ call_n (S L) get_next_data_point g w = (Return rs, gL, w)
    /\ nth_error rs 0 = Some (Some r)
    /\ nth_error rs L = Some (Some r)
    /\ current_data_index (state_of (get_next_data_point g w))
       = (current_data_index g + 1) mod Z.of_nat L
    /\ csv_data (state_of (get_next_data_point g w)) = csv_data g
    /\ (forall j, (j <= L)%nat ->
          nth_error rs j =
            Some (nth_error (csv_data g)
                    (Z.to_nat ((current_data_index g + Z.of_nat j) mod Z.of_nat L))))
    /\ current_data_index gL = (current_data_index g + 1) mod Z.of_nat L
    /\ csv_data gL = csv_data g.
Proof.
  intros _ Hok L g1.
  destruct (cursor_ok_reading g Hok) as [r Hr].
  destruct (call_n_get_next (S L) g w Hok) as (rs & Hrun & _ & Hnth).
  pose proof Hok as [H0 H1].
  exists r, rs. eexists.
  split; [exact Hr|].
  split; [apply get_next_data_point_step; assumption|].
  split; [apply cursor_ok_advance; exact Hok|].
  split; [exact Hrun|].
  split.
  { rewrite Hnth by lia. rewrite Z.add_0_r, Z.mod_small by (subst L; lia).
    rewrite Hr. reflexivity. }
  split.
  { rewrite Hnth by lia. subst L.
    rewrite <- (Z.mul_1_l (Z.of_nat (length (csv_data g)))) at 1.
    rewrite Z.mod_add by lia. rewrite Z.mod_small by lia.
    rewrite Hr. reflexivity. }
  split.
  { rewrite (get_next_data_point_step g w r H0 Hr). reflexivity. }
  split.
  { rewrite (get_next_data_point_step g w r H0 Hr). reflexivity. }
  split.
  { intros j Hj. apply Hnth. lia. }
  split.
  { cbn [current_data_index set_current_data_index]. fold L.
    replace (Z.of_nat (S L)) with (1 + 1 * Z.of_nat L) by lia.
    rewrite Z.add_assoc, Z.mod_add by (subst L; lia). reflexivity. }
  reflexivity.
Qed.

Lemma C6_next_is_cyclic_witness :
  exists r rs gL,
    nth_error (csv_data feed_ab_at_1) 1 = Some r
    /\ get_next_data_point feed_ab_at_1 io0
       = (Return (Some r), set_current_data_index 0 feed_ab_at_1, io0)
    /\ cursor_ok (set_current_data_index 0 feed_ab_at_1)
    /\ call_n 3 get_next_data_point feed_ab_at_1 io0 = (Return rs, gL, io0)
    /\ nth_error rs 0 = Some (Some r)
    /\ nth_error rs 2 = Some (Some r)
    /\ current_data_index (state_of (get_next_data_point feed_ab_at_1 io0)) = 0
    /\ csv_data (state_of (get_next_data_point feed_ab_at_1 io0))
       = [reading_a; reading_b]
    /\ (forall j, (j <= 2)%nat ->
          nth_error rs j =
            Some (nth_error [reading_a; reading_b]
                    (Z.to_nat ((1 + Z.of_nat j) mod 2))))
    /\ current_data_index gL = 0
    /\ csv_data gL = [reading_a; reading_b].
Proof.
  apply (C6_next_is_cyclic feed_ab_at_1 io0).
  - discriminate.
  - unfold cursor_ok. cbn. lia.
Defined.

(** [get_csv_data] leaves the globals and the outside untouched and
    returns the last [min 100 L] readings. *)
Lemma get_csv_data_run (g : globals) (w : io) :
  get_csv_data g w =
    (Return (jsonify [ ("data", JArr (map json_of_reading (last_n 100 (csv_data g))));
                       ("success", JBool true) ]),
     g, w).
Proof.
  unfold get_csv_data, try_except, bind, get, ret, last_n.
  destruct (100 <? Z.of_nat (length (csv_data g))) eqn:E.
  - apply Z.ltb_lt in E. unfold slice_from.
    replace (-100 <? 0) with true by reflexivity.
    rewrite Z.max_l by lia.
    replace (Z.to_nat (-100 + Z.of_nat (length (csv_data g))))
      with (length (csv_data g) - 100)%nat by lia.
    reflexivity.
  - apply Z.ltb_ge in E.
    replace (length (csv_data g) - 100)%nat with 0%nat by lia.
    reflexivity.
Qed.

Lemma last_n_length {A} (n : nat) (l : list A) :
  length (last_n n l) = Nat.min n (length l).
Proof. unfold last_n. rewrite length_skipn. lia. Qed.

(** C9, as the code has it.  [get_csv_data] takes no request size: it
    returns the last [min 100 L] readings of the feed in their order,
    exactly that many, and changes neither the cursor nor anything else,
    so that a following [get_next_data_point] behaves as if it had not
    been called. *)
Theorem C9_recent_is_last_100 (g : globals) (w : io) :
  exists resp,
    get_csv_data g w = (Return resp, g, w)
    /\ status resp = 200
    /\ data_items resp = map json_of_reading (last_n 100 (csv_data g))
    /\ length (data_items resp) = Nat.min 100 (length (csv_data g))
    /\ (exists front, csv_data g = (front ++ last_n 100 (csv_data g))%list)
    /\ (get_csv_data ;; get_next_data_point) g w = get_next_data_point g w.
Proof.
  eexists. split; [apply get_csv_data_run|].
  split; [reflexivity|].
  split; [reflexivity|].
  split.
  { change (length (map json_of_reading (last_n 100 (csv_data g)))
            = Nat.min 100 (length (csv_data g))).
    rewrite length_map. apply last_n_length. }
  split.
  { exists (firstn (length (csv_data g) - 100) (csv_data g)).
    unfold last_n. symmetry. apply firstn_skipn. }
  unfold bind at 1. rewrite get_csv_data_run. reflexivity.
Qed.

(** C9 as claimed fails: with a request size of 1 on a feed of two
    readings the response still carries both. *)
Lemma C9_recent_ignores_request_size :
  ~ (forall (n : nat) (g : globals) (w : io),
       match result_of (get_csv_data g w) with
       | Return resp => length (data_items resp) = Nat.min n (length (csv_data g))
       | Raise _ => False
       end).
Proof.
  intros H. specialize (H 1%nat feed_ab_at_1 io0).
  vm_compute in H. discriminate H.
Qed.

(** *** Loading *)

Section Loading.

Variable env : environment.

(** A row only ever touches [csv_data]; it raises exactly when it is
    not [row_ok]. *)
Lemma load_row_run (row : csv_row) (g : globals) (w : io) :
  exists o l,
    load_row env row g w = (o, set_csv_data l g, w)
    /\ (row_ok env row = true -> o = Return tt)
    /\ (row_ok env row = false -> exists e, o = Raise e).
Proof.
  destruct g as [tn l0 i].
  unfold load_row, row_ok, bind, lift_outcome, modify.
  destruct (row_item row "Current (A)") as [cell|e].
  - destruct (py_float env cell) as [c|e].
    + destruct (row_item row "Timestamp") as [ts|e].
      * eexists _, _. split; [reflexivity|]. split; [reflexivity|discriminate].
      * exists (Raise e), l0. split; [reflexivity|]. split; [discriminate|eauto].
    + exists (Raise e), l0. split; [reflexivity|].
      split; [destruct (row_item row "Timestamp"); discriminate|eauto].
  - exists (Raise e), l0. split; [reflexivity|]. split; [discriminate|eauto].
Qed.

Lemma for_each_load_row_run (rows : list csv_row) : forall (g : globals) (w : io),
  exists o l,
    for_each rows (load_row env) g w = (o, set_csv_data l g, w)
    /\ (forallb (row_ok env) rows = true -> o = Return tt)
    /\ (forallb (row_ok env) rows = false -> exists e, o = Raise e).
Proof.
  induction rows as [|row rows IH]; intros g w.
  - exists (Return tt), (csv_data g). destruct g. cbn.
    split; [reflexivity|]. split; [reflexivity|discriminate].
  - cbn [for_each forallb]. unfold bind.
    destruct (load_row_run row g w) as (o1 & l1 & Hrow & Hok & Hbad).
    rewrite Hrow. destruct (row_ok env row).
    + rewrite (Hok eq_refl).
      destruct (IH (set_csv_data l1 g) w) as (o & l & Hrest & Hall & Hsome).
      exists o, l. rewrite Hrest. split; [reflexivity|]. split; assumption.
    + destruct (Hbad eq_refl) as [e ->].
      exists (Raise e), l1. split; [reflexivity|]. split; [discriminate|eauto].
Qed.

(** [load_csv_data] always returns normally, writes [csv_data] only and
    prints one line; on a malformed source the list is left empty and
    the line is the diagnostic. *)
Lemma load_csv_data_run (src : source) (g : globals) (w : io) :
  exists l line,
    load_csv_data env src g w = (Return tt, set_csv_data l g, io_print line w)
    /\ (well_formed env src = false ->
        l = [] /\ exists e, line = "Error loading CSV data: " ++ str_of_exception e).
Proof.
  unfold load_csv_data, well_formed.
  destruct src as [e|rows failure].
  - exists [], ("Error loading CSV data: " ++ str_of_exception e).
    split; [destruct g; reflexivity|]. intros _. split; [reflexivity|eauto].
  - destruct (for_each_load_row_run rows (set_csv_data [] g) w)
      as (o & l & Hrows & Hall & Hsome).
    unfold bind at 1. unfold modify at 1. unfold try_except.
    unfold bind at 1. unfold bind at 1. rewrite Hrows.
    destruct (forallb (row_ok env) rows).
    + rewrite (Hall eq_refl). destruct failure as [e|].
      * exists [], ("Error loading CSV data: " ++ str_of_exception e).
        split; [destruct g; reflexivity|]. intros _. split; [reflexivity|eauto].
      * eexists l, _. split; [destruct g; reflexivity|]. discriminate.
    + destruct (Hsome eq_refl) as [e ->].
      exists [], ("Error loading CSV data: " ++ str_of_exception e).
      split; [destruct g; reflexivity|]. intros _. split; [reflexivity|eauto].
Qed.

End Loading.

Section LoadingErrors.

Variable env : environment.

Lemma load_row_error (row : csv_row) (g : globals) (w : io) :
  match row_error env row with
  | Some e => load_row env row g w = (Raise e, g, w)
  | None => exists r, load_row env row g w
                      = (Return tt, set_csv_data (csv_data g ++ [r])%list g, w)
  end.
Proof.
  unfold row_error, load_row, bind, lift_outcome, modify.
  destruct (row_item row "Current (A)") as [cell|e]; [|reflexivity].
  destruct (py_float env cell) as [c|e]; [|reflexivity].
  destruct (row_item row "Timestamp") as [ts|e]; [|reflexivity].
  eexists. reflexivity.
Qed.

(** The loop raises the error of the first row that has one, having
    written [csv_data] only. *)
Lemma for_each_load_row_error (rows : list csv_row) : forall (g : globals) (w : io),
  exists g',
    for_each rows (load_row env) g w =
      (match rows_error env rows with
       | Some e => Raise e
       | None => Return tt
       end, g', w)
    /\ telegram_notifier g' = telegram_notifier g
    /\ current_data_index g' = current_data_index g.
Proof.
  induction rows as [|row rows IH]; intros g w.
  - exists g. cbn. auto.
  - cbn [for_each rows_error]. unfold bind.
    pose proof (load_row_error row g w) as Hrow.
    destruct (row_error env row) as [e|].
    + rewrite Hrow. exists g. auto.
    + destruct Hrow as [r ->].
      destruct (IH (set_csv_data (csv_data g ++ [r])%list g) w) as (g' & Hrun & Htn & Hcur).
      exists g'. rewrite Hrun. auto.
Qed.

Lemma row_ok_no_error (row : csv_row) :
  row_ok env row = true <-> row_error env row = None.
Proof.
  unfold row_ok, row_error.
  destruct (row_item row "Current (A)") as [cell|e]; [|split; discriminate].
  destruct (py_float env cell) as [c|e];
    destruct (row_item row "Timestamp") as [ts|e']; split; (discriminate || reflexivity).
Qed.

Lemma rows_ok_no_error (rows : list csv_row) :
  forallb (row_ok env) rows = true <-> rows_error env rows = None.
Proof.
  induction rows as [|row rows IH]; [split; reflexivity|].
  cbn [forallb rows_error]. rewrite andb_true_iff, IH, row_ok_no_error.
  destruct (row_error env row); split.
  - intros [H _]. discriminate.
  - discriminate.
  - intros [_ H]. exact H.
  - intros H. split; [reflexivity | exact H].
Qed.

(** A source is malformed exactly when loading it runs into an error. *)
Lemma malformed_has_error (src : source) :
  well_formed env src = false -> exists e, first_error env src = Some e.
Proof.
  unfold well_formed, first_error.
  destruct src as [e|rows [e|]].
  - eauto.
  - intros _. destruct (rows_error env rows); eauto.
  - intros Hbad. destruct (rows_error env rows) as [e|] eqn:E; [eauto|].
    apply rows_ok_no_error in E. congruence.
Qed.

Lemma load_csv_data_on_error (src : source) (e : exception) (g : globals) (w : io) :
  first_error env src = Some e ->
  load_csv_data env src g w =
    (Return tt, set_csv_data [] g,
     io_print ("Error loading CSV data: " ++ str_of_exception e) w).
Proof.
  unfold first_error, load_csv_data.
  destruct src as [e0|rows failure].
  - intros He. injection He as <-. destruct g; reflexivity.
  - intros He.
    destruct (for_each_load_row_error rows (set_csv_data [] g) w)
      as (g' & Hrows & Htn & Hcur).
    unfold bind at 1. unfold modify at 1. unfold try_except.
    unfold bind at 1. unfold bind at 1. rewrite Hrows.
    destruct (rows_error env rows) as [e1|].
    + injection He as <-. unfold bind, print, modify.
      destruct g, g'. cbn in *. subst. reflexivity.
    + subst failure. unfold bind, print, modify, raise.
      destruct g, g'. cbn in *. subst. reflexivity.
Qed.

End LoadingErrors.

(** C8. On a malformed source (the file cannot be opened, the reader
    fails, or a row lacks a usable current or timestamp) loading runs into
    an error, and [load_csv_data] absorbs it: it returns normally, the
    [csv_data] it leaves is empty, the other globals are as before, and it
    prints the diagnostic carrying that error. *)
Theorem C8_malformed_source_is_absorbed
  (env : environment) (src : source) (g : globals) (w : io) :
  well_formed env src = false ->
  exists e,
    load_csv_data env src g w =
      (Return tt, set_csv_data [] g,
       io_print ("Error loading CSV data: " ++ str_of_exception e) w)
    /\ first_error env src = Some e
    /\ result_of (load_csv_data env src g w) = Return tt
    /\ csv_data (state_of (load_csv_data env src g w)) = []
    /\ current_data_index (state_of (load_csv_data env src g w)) = current_data_index g
    /\ telegram_notifier (state_of (load_csv_data env src g w)) = telegram_notifier g
    /\ stdout (io_of (load_csv_data env src g w))
       = List.app (stdout w) ["Error loading CSV data: " ++ str_of_exception e].
Proof.
  intros Hbad.
  destruct (malformed_has_error env src Hbad) as [e He].
  exists e. rewrite (load_csv_data_on_error env src e g w He).
  split; [reflexivity|]. split; [exact He|]. repeat split.
Qed.

Lemma C8_malformed_source_is_absorbed_witness :
  well_formed env_up source_bad_second_row = false
  /\ exists e,
       load_csv_data env_up source_bad_second_row feed_ab_at_1 io0 =
         (Return tt, set_csv_data [] feed_ab_at_1,
          io_print ("Error loading CSV data: " ++ str_of_exception e) io0)
       /\ first_error env_up source_bad_second_row = Some e
       /\ result_of (load_csv_data env_up source_bad_second_row feed_ab_at_1 io0)
          = Return tt
       /\ csv_data (state_of (load_csv_data env_up source_bad_second_row feed_ab_at_1 io0))
          = []
       /\ current_data_index
            (state_of (load_csv_data env_up source_bad_second_row feed_ab_at_1 io0)) = 1
       /\ telegram_notifier
            (state_of (load_csv_data env_up source_bad_second_row feed_ab_at_1 io0)) = None
       /\ stdout (io_of (load_csv_data env_up source_bad_second_row feed_ab_at_1 io0))
          = List.app (stdout io0)
              ["Error loading CSV data: " ++ str_of_exception e].
Proof.
  split.
  - reflexivity.
  - apply (C8_malformed_source_is_absorbed env_up source_bad_second_row feed_ab_at_1 io0).
    reflexivity.
Defined.

(** The diagnostic of the sample file names the cell that does not
    convert. *)
Lemma bad_second_row_diagnostic :
  stdout (io_of (load_csv_data env_up source_bad_second_row feed_ab_at_1 io0))
    = ["Error loading CSV data: could not convert string to float: 'n/a'"].
Proof. reflexivity. Qed.

(** Start-up without the CSV file: the feed stays empty and the
    diagnostic is printed. *)
Lemma startup_without_file :
  load_csv_data env_up source_missing initial io0 =
    (Return tt, initial,
     io_print ("Error loading CSV data: "
               ++ "[Errno 2] No such file or directory: 'dc_current_log.csv'") io0).
Proof. reflexivity. Qed.

(** Start-up with a one-row file: one reading, its voltage 220 + 0.12 * 100. *)
Lemma startup_with_one_row :
  exists r,
    csv_data (state_of (load_csv_data env_up source_one_row initial io0)) = [r]
    /\ timestamp r = Some "10:00:00"
    /\ (current r == 12 # 100)%Q
    /\ (voltage r == 232)%Q
    /\ stdout (io_of (load_csv_data env_up source_one_row initial io0))
       = ["Loaded 1 data points from CSV"].
Proof. eexists. repeat split. Qed.

(** C5, as the code has it.  [load_csv_data] never writes the cursor: it
    returns normally with [current_data_index] as it found it, whatever
    the source.  The cursor is 0 after a load only because the module
    starts it at 0: loading into the module as imported leaves it 0. *)
Theorem C5_load_keeps_cursor
  (env : environment) (src : source) (g : globals) (w : io) :
  result_of (load_csv_data env src g w) = Return tt
  /\ current_data_index (state_of (load_csv_data env src g w)) = current_data_index g
  /\ current_data_index (state_of (load_csv_data env src initial w)) = 0.
Proof.
  destruct (load_csv_data_run env src g w) as (l & line & Hrun & _).
  destruct (load_csv_data_run env src initial w) as (l' & line' & Hrun' & _).
  rewrite Hrun, Hrun'. repeat split.
Qed.

(** C5 as claimed fails: a load does not bring the cursor back to 0.
    Loading a one-row file over a feed whose cursor stands at 1 leaves the
    cursor at 1. *)
Lemma C5_load_does_not_reset_cursor :
  ~ (forall (env : environment) (src : source) (g : globals) (w : io),
       current_data_index (state_of (load_csv_data env src g w)) = 0).
Proof.
  intros H. specialize (H env_up source_one_row feed_ab_at_1 io0).
  vm_compute in H. discriminate H.
Qed.

(** *** The synthetic reading *)

Lemma two_digit_ok_below_100 : forallb two_digit_ok (map Z.of_nat (seq 0 100)) = true.
Proof. vm_compute. reflexivity. Qed.

Lemma zfill_2_reads_back (n : Z) :
  0 <= n < 100 ->
  exists a b,
    zfill 2 (decimal n) = String a (String b EmptyString) /\ two_digits a b = Some n.
Proof.
  intros Hn.
  assert (Hin : In n (map Z.of_nat (seq 0 100))).
  { rewrite <- (Z2Nat.id n) by lia. apply in_map. apply in_seq. lia. }
  pose proof (proj1 (forallb_forall _ _) two_digit_ok_below_100 n Hin) as Hok.
  unfold two_digit_ok in Hok.
  destruct (zfill 2 (decimal n)) as [|a [|b [|]]]; try discriminate.
  exists a, b. split; [reflexivity|].
  destruct (two_digits a b) as [m|]; [|discriminate].
  apply Z.eqb_eq in Hok. congruence.
Qed.

Lemma parse_strftime_HMS (d : datetime) :
  valid_time d -> parse_HMS (strftime_HMS d) = Some (hour d, minute d, second d).
Proof.
  intros (Hh & Hm & Hs). unfold strftime_HMS.
  destruct (zfill_2_reads_back (hour d)) as (h1 & h2 & -> & Eh); [lia|].
  destruct (zfill_2_reads_back (minute d)) as (m1 & m2 & -> & Em); [lia|].
  destruct (zfill_2_reads_back (second d)) as (s1 & s2 & -> & Es); [lia|].
  cbn. rewrite Eh, Em, Es. reflexivity.
Qed.

(** On an empty feed [get_next_data_point] returns [None] and writes
    nothing. *)
Lemma get_next_data_point_empty (g : globals) (w : io) :
  csv_data g = [] -> get_next_data_point g w = (Return None, g, w).
Proof.
  intros E. unfold get_next_data_point, bind, get. rewrite E. reflexivity.
Qed.

(** C3. With an empty [csv_data], [get_voltage_data] answers 200 with a
    synthetic reading: the timestamp is the clock's time of day as
    [HH:MM:SS], the voltage lies in [210, 230], the current in [0, 0.5].
    The computation ends in the globals it started in, so the cursor is
    not touched, and it prints nothing: the error branch is not taken. *)
Theorem C3_empty_feed_gives_synthetic_reading
  (env : environment) (g : globals) (w : io) :
  csv_data g = [] ->
  random_in_range env ->
  valid_time (now_at env (clock_reads w)) ->
  exists ts v c w',
    get_voltage_data env g w =
      (Return (mkResponse 200
                 (JObj [ ("timestamp", JStr ts); ("voltage", JFloat v);
                         ("current", JFloat c); ("success", JBool true) ])),
       g, w')
    /\ parse_HMS ts =
         Some (hour (now_at env (clock_reads w)),
               minute (now_at env (clock_reads w)),
               second (now_at env (clock_reads w)))
    /\ (210 <= v)%Q /\ (v <= 230)%Q
    /\ (0 <= c)%Q /\ (c <= 1 # 2)%Q
    /\ stdout w' = stdout w.
Proof.
  intros Hempty Hrand Htime.
  assert (Hrun : get_voltage_data env g w =
    (Return (mkResponse 200
       (JObj [ ("timestamp", JStr (strftime_HMS (now_at env (clock_reads w))));
               ("voltage",
                JFloat (220 + (-10 + (10 - -10) * random_at env (random_draws w)))%Q);
               ("current",
                JFloat (0 + ((1 # 2) - 0) * random_at env (S (random_draws w)))%Q);
               ("success", JBool true) ])),
     g, io_draw (io_tick (io_draw w)))).
  { unfold get_voltage_data, try_except. unfold bind at 1.
    rewrite (get_next_data_point_empty g w Hempty). reflexivity. }
  do 4 eexists. split; [exact Hrun|].
  split; [apply parse_strftime_HMS; exact Htime|].
  destruct (Hrand (random_draws w)) as [Hv0 Hv1].
  destruct (Hrand (S (random_draws w))) as [Hc0 Hc1].
  split; [lra|]. split; [lra|]. split; [lra|]. split; [lra|].
  reflexivity.
Qed.

Lemma C3_empty_feed_gives_synthetic_reading_witness :
  exists ts v c w',
    get_voltage_data env_up initial io0 =
      (Return (mkResponse 200
                 (JObj [ ("timestamp", JStr ts); ("voltage", JFloat v);
                         ("current", JFloat c); ("success", JBool true) ])),
       initial, w')
    /\ parse_HMS ts = Some (9, 30, 0)
    /\ (210 <= v)%Q /\ (v <= 230)%Q
    /\ (0 <= c)%Q /\ (c <= 1 # 2)%Q
    /\ stdout w' = [].
Proof.
  apply (C3_empty_feed_gives_synthetic_reading env_up initial io0).
  - reflexivity.
  - intros k. cbn. split; [discriminate | reflexivity].
  - unfold valid_time. cbn. lia.
Defined.

(* ================================================================== *)
(** ** The HTTP alert endpoint *)

(** On a JSON object the handler prints its five lines, reads the clock
    once and answers 200. *)
Lemma telegram_alert_on_object
  (env : environment) (fields : list (string * json)) (g : globals) (w : io) :
  exists w',
    telegram_alert env (Return (JObj fields)) g w =
      (Return (mkResponse 200
                 (JObj [ ("success", JBool true);
                         ("message", JStr "Alert sent successfully") ])),
       g, w')
    /\ stdout w' =
         List.app (stdout w)
           [ "🚨 VOLTAGE SPIKE ALERT (Telegram not configured):";
             "   Voltage: " ++ py_format env (dict_get fields "voltage" (JInt 0)) ++ "V";
             "   Area: " ++ py_format env (dict_get fields "area" (JStr "Unknown Area"));
             "   Severity: "
               ++ py_format env (dict_get fields "severity" (JStr "MEDIUM"));
             "   Time: " ++ isoformat (now_at env (clock_reads w)) ]
    /\ outbox w' = outbox w
    /\ logged w' = logged w
    /\ clock_reads w' = S (clock_reads w).
Proof.
  eexists. split; [reflexivity|].
  cbn. repeat rewrite <- app_assoc. repeat split.
Qed.

(** C10, as the code has it.  For a body that parses to a JSON object,
    [telegram_alert] answers 200 with [success = true] and
    'Alert sent successfully'; it prints five console lines and reads the
    clock once, and that is all: the globals (the unset notifier among
    them) are as before, nothing is logged and no delivery is attempted.
    For a JSON body that is not an object it answers 500 with
    [success = false], again without any delivery attempt. *)
Theorem C10_alert_endpoint_only_prints
  (env : environment) (data : json) (g : globals) (w : io) :
  match data with
  | JObj fields =>
      exists w',
        telegram_alert env (Return data) g w =
          (Return (mkResponse 200
                     (JObj [ ("success", JBool true);
                             ("message", JStr "Alert sent successfully") ])),
           g, w')
        /\ stdout w' =
             List.app (stdout w)
               [ "🚨 VOLTAGE SPIKE ALERT (Telegram not configured):";
                 "   Voltage: " ++ py_format env (dict_get fields "voltage" (JInt 0)) ++ "V";
                 "   Area: " ++ py_format env (dict_get fields "area" (JStr "Unknown Area"));
                 "   Severity: "
                   ++ py_format env (dict_get fields "severity" (JStr "MEDIUM"));
                 "   Time: " ++ isoformat (now_at env (clock_reads w)) ]
        /\ outbox w' = outbox w
        /\ logged w' = logged w
        /\ clock_reads w' = S (clock_reads w)
  | _ =>
      exists line,
        telegram_alert env (Return data) g w =
          (Return (mkResponse 500
                     (JObj [ ("success", JBool false);
                             ("message", JStr "Error sending alert") ])),
           g, io_print line w)
  end.
Proof.
  destruct data; try (eexists; reflexivity).
  apply telegram_alert_on_object.
Qed.

(** C10 as claimed fails: the body [null] parses as JSON and is answered
    with the error response. *)
Lemma C10_json_body_that_is_no_object :
  ~ (forall (env : environment) (data : json) (g : globals) (w : io),
       result_of (telegram_alert env (Return data) g w) =
         Return (mkResponse 200
                   (JObj [ ("success", JBool true);
                           ("message", JStr "Alert sent successfully") ]))).
Proof.
  intros H. specialize (H env_up JNull initial io0).
  vm_compute in H. discriminate H.
Qed.

(* ================================================================== *)
(** ** The alert notifier *)

Section Notifier.

Variable env : environment.

(** A send that is let through reads the clock for the message, makes one
    delivery attempt, and records the time and returns [True] only when
    the transport accepted the message. *)
Lemma deliver_alert_run (voltage : Q) (area severity : string)
  (additional_info : option (list (string * json)))
  (self : VoltageSpikeNotifier) (w : io) :
  let msg := alert_outbound env self voltage area severity additional_info
               (now_at env (clock_reads w)) in
  deliver_alert env voltage area severity additional_info self w =
    match transport env (length (outbox w)) msg with
    | None =>
        (Return true,
         set_last_alert_time (Some (now_at env (S (clock_reads w)))) self,
         io_log INFO ("Successfully sent voltage spike alert to chat " ++ chat_id self)
           (io_tick (io_send msg (io_tick w))))
    | Some e =>
        (Return false, self,
         io_log ERROR ("Failed to send Telegram alert: " ++ str_of_exception e)
           (io_send msg (io_tick w)))
    end.
Proof.
  intros msg. unfold deliver_alert.
  unfold bind at 1. unfold datetime_now at 1.
  unfold try_except. unfold bind at 1. unfold get at 1.
  unfold bind at 1. unfold bot_send_message.
  change (length (outbox (io_tick w))) with (length (outbox w)).
  fold (alert_outbound env self voltage area severity additional_info
          (now_at env (clock_reads w))). fold msg.
  destruct (transport env (length (outbox w)) msg) as [e|]; reflexivity.
Qed.

Lemma send_when_cooling (voltage : Q) (area severity : option string)
  (additional_info : option (list (string * json)))
  (self : VoltageSpikeNotifier) (w : io) :
  cooling self (now_at env (clock_reads w)) = true ->
  exists last,
    last_alert_time self = Some last
    /\ send_voltage_spike_alert env voltage area severity additional_info self w =
         (Return false, self,
          io_log INFO
            ("Alert cooldown active. Skipping alert. ("
             ++ format_1f (total_seconds (sub (now_at env (clock_reads w)) last))
             ++ "s remaining)")
            (io_tick w)).
Proof.
  unfold cooling, send_voltage_spike_alert.
  unfold bind at 1. unfold get at 1.
  destruct (last_alert_time self) as [last|]; [|discriminate].
  intros Hcool. exists last. split; [reflexivity|].
  unfold bind at 1. unfold datetime_now at 1. rewrite Hcool. reflexivity.
Qed.

Lemma send_when_not_cooling (voltage : Q) (area severity : option string)
  (additional_info : option (list (string * json)))
  (self : VoltageSpikeNotifier) (w : io) :
  cooling self (now_at env (clock_reads w)) = false ->
  send_voltage_spike_alert env voltage area severity additional_info self w =
    deliver_alert env voltage (default "Unknown Area" area) (default "HIGH" severity)
      additional_info self (after_gate self w).
Proof.
  unfold cooling, send_voltage_spike_alert, after_gate.
  unfold bind at 1. unfold get at 1.
  destruct (last_alert_time self) as [last|]; [|reflexivity].
  intros Hcool. unfold bind at 1. unfold datetime_now at 1. rewrite Hcool. reflexivity.
Qed.

(** Every send returns a boolean without raising and leaves exactly one
    logger record. *)
Lemma send_returns (voltage : Q) (area severity : option string)
  (additional_info : option (list (string * json)))
  (self : VoltageSpikeNotifier) (w : io) :
  exists b self' w' record,
    send_voltage_spike_alert env voltage area severity additional_info self w =
      (Return b, self', w')
    /\ logged w' = List.app (logged w) [record].
Proof.
  destruct (cooling self (now_at env (clock_reads w))) eqn:Hcool.
  - destruct (send_when_cooling voltage area severity additional_info self w Hcool)
      as (last & _ & ->).
    do 4 eexists. split; reflexivity.
  - rewrite (send_when_not_cooling voltage area severity additional_info self w Hcool).
    rewrite deliver_alert_run.
    assert (Hlog : logged (after_gate self w) = logged w).
    { unfold after_gate. destruct (last_alert_time self); reflexivity. }
    destruct (transport env _ _); do 4 eexists; (split; [reflexivity|]);
      cbn; rewrite Hlog; reflexivity.
Qed.

End Notifier.

Lemma Qltb_lt (x y : Q) : Qltb x y = true <-> (x < y)%Q.
Proof.
  unfold Qltb. rewrite negb_true_iff. split.
  - intros H. apply Qnot_le_lt. intros Hle.
    apply Qle_bool_iff in Hle. congruence.
  - intros H. destruct (Qle_bool y x) eqn:E; [|reflexivity].
    apply Qle_bool_iff in E. exfalso. exact (Qlt_not_le _ _ H E).
Qed.

Lemma Qltb_ge (x y : Q) : Qltb x y = false <-> (y <= x)%Q.
Proof.
  unfold Qltb. rewrite negb_false_iff. apply Qle_bool_iff.
Qed.

(** *** The cooldown *)

(** C1, as the code has it.  A send that the cooldown check lets through
    makes exactly one delivery attempt.  When the transport accepts the
    message the send returns [True] and [last_alert_time] becomes the
    clock reading taken after the delivery; when the transport raises, the
    send returns [False] and the notifier is left as it was, so the failed
    attempt starts no cooldown. *)
Theorem C1_alert_time_recorded_on_success_only
  (env : environment) (ev : spike_event) (self : VoltageSpikeNotifier) (w : io) :
  cooling self (now_at env (clock_reads w)) = false ->
  let w1 := after_gate self w in
  let msg := alert_outbound env self (ev_voltage ev)
               (default "Unknown Area" (ev_area ev)) (default "HIGH" (ev_severity ev))
               (ev_info ev) (now_at env (clock_reads w1)) in
  let run := send_event env ev self w in
  outbox (io_of run) = List.app (outbox w) [msg]
  /\ match transport env (length (outbox w)) msg with
     | None =>
         result_of run = Return true
         /\ state_of run =
              set_last_alert_time (Some (now_at env (S (clock_reads w1)))) self
         /\ last_alert_time (state_of run) = Some (now_at env (S (clock_reads w1)))
     | Some _ =>
         result_of run = Return false /\ state_of run = self
         /\ last_alert_time (state_of run) = last_alert_time self
     end.
Proof.
  intros Hcool w1 msg run. subst run. unfold send_event.
  rewrite (send_when_not_cooling env _ _ _ _ self w Hcool). fold w1.
  rewrite deliver_alert_run. fold msg.
  assert (Hout : outbox w1 = outbox w).
  { subst w1. unfold after_gate. destruct (last_alert_time self); reflexivity. }
  rewrite Hout.
  destruct (transport env (length (outbox w)) msg); cbn; rewrite Hout; repeat split.
Qed.

Lemma C1_alert_time_recorded_on_success_only_witness :
  cooling notifier0 (now_at env_down 0) = false
  /\ exists msg,
       outbox (io_of (send_event env_down spike_295 notifier0 io0)) = [msg]
       /\ result_of (send_event env_down spike_295 notifier0 io0) = Return false
       /\ state_of (send_event env_down spike_295 notifier0 io0) = notifier0.
Proof.
  split; [reflexivity|].
  pose proof (C1_alert_time_recorded_on_success_only env_down spike_295 notifier0 io0
                eq_refl) as [Hout [Hres [Hst _]]].
  eexists. split; [exact Hout|]. split; [exact Hres | exact Hst].
Defined.

(** C1 as claimed fails: a send that is let through and whose delivery
    fails records no time at all. *)
Lemma C1_failed_delivery_records_no_time :
  ~ (forall (env : environment) (ev : spike_event) (self : VoltageSpikeNotifier)
            (w : io),
       cooling self (now_at env (clock_reads w)) = false ->
       exists k, last_alert_time (state_of (send_event env ev self w))
                 = Some (now_at env k)).
Proof.
  intros H.
  destruct (H env_down spike_295 notifier0 io0 eq_refl) as [k Hk].
  vm_compute in Hk. discriminate Hk.
Qed.

(** Two sends in a row against a destination that refuses: the second is
    not suppressed, both reach the transport. *)
Lemma retry_after_failed_delivery :
  result_of (send_all env_down [spike_295; spike_295] notifier0 io0)
    = Return [false; false]
  /\ length (outbox (io_of (send_all env_down [spike_295; spike_295] notifier0 io0)))
     = 2%nat.
Proof. split; vm_compute; reflexivity. Qed.

(** Three sends in a row against a destination that accepts: the first is
    delivered, the next two are suppressed. *)
Lemma suppressed_after_delivery :
  result_of (send_all env_up [spike_295; spike_295; spike_295] notifier0 io0)
    = Return [true; false; false]
  /\ length (outbox (io_of (send_all env_up [spike_295; spike_295; spike_295]
                              notifier0 io0))) = 1%nat
  /\ last_alert_time (state_of (send_all env_up [spike_295; spike_295; spike_295]
                                  notifier0 io0)) = Some (now_at env_up 1).
Proof. repeat split; vm_compute; reflexivity. Qed.

(** While the notifier is cooling, any number of sends in a row are all
    suppressed: each reads the clock once and logs one record, and none
    reaches the transport or writes the notifier. *)
Lemma send_all_when_cooling (env : environment) (self : VoltageSpikeNotifier)
  (last : datetime) (events : list spike_event) : forall (w : io),
  last_alert_time self = Some last ->
  (forall k, (clock_reads w <= k < clock_reads w + length events)%nat ->
     (total_seconds (sub (now_at env k) last) < inject_Z (alert_cooldown self))%Q) ->
  exists w',
    send_all env events self w = (Return (repeat false (length events)), self, w')
    /\ outbox w' = outbox w
    /\ stdout w' = stdout w
    /\ clock_reads w' = (clock_reads w + length events)%nat
    /\ length (logged w') = (length (logged w) + length events)%nat.
Proof.
  induction events as [|ev events IH]; intros w Hlast Hwin.
  - exists w. cbn. repeat split; lia.
  - assert (Hcool : cooling self (now_at env (clock_reads w)) = true).
    { unfold cooling. rewrite Hlast. apply Qltb_lt. apply Hwin. cbn. lia. }
    destruct (send_when_cooling env (ev_voltage ev) (ev_area ev) (ev_severity ev)
                (ev_info ev) self w Hcool) as (last' & _ & Hsend).
    destruct (IH (io_log INFO
                    ("Alert cooldown active. Skipping alert. ("
                     ++ format_1f (total_seconds (sub (now_at env (clock_reads w)) last'))
                     ++ "s remaining)") (io_tick w)) Hlast)
      as (w' & Hrun & Hout & Hstd & Hclk & Hlog).
    { intros k Hk. apply Hwin. cbn in *. lia. }
    exists w'. cbn [send_all length repeat].
    unfold bind at 1. unfold send_event. rewrite Hsend.
    unfold bind at 1. rewrite Hrun.
    split; [reflexivity|].
    cbn in Hout, Hstd, Hclk, Hlog. rewrite length_app in Hlog. cbn in Hlog.
    repeat split; try assumption; lia.
Qed.

(** C2, as the code has it.  When an alert time is recorded and the clock
    reads less than [alert_cooldown] seconds past it, a send returns
    [False] (the suppressed result), reads the clock for the check only
    (no message is built), makes no delivery attempt and leaves the
    notifier unchanged.  Hence after a recorded alert no delivery attempt
    is made for as long as the clock stays within the cooldown of it,
    however many spike events arrive. *)
Theorem C2_cooling_suppresses
  (env : environment) (self : VoltageSpikeNotifier) (last : datetime)
  (ev : spike_event) (events : list spike_event) (w : io) :
  last_alert_time self = Some last ->
  (forall k, (clock_reads w <= k < clock_reads w + S (length events))%nat ->
     (total_seconds (sub (now_at env k) last) < inject_Z (alert_cooldown self))%Q) ->
  send_event env ev self w =
    (Return false, self,
     io_log INFO
       ("Alert cooldown active. Skipping alert. ("
        ++ format_1f (total_seconds (sub (now_at env (clock_reads w)) last))
        ++ "s remaining)")
       (io_tick w))
  /\ exists w',
       send_all env (ev :: events) self w =
         (Return (repeat false (S (length events))), self, w')
       /\ outbox w' = outbox w
       /\ clock_reads w' = (clock_reads w + S (length events))%nat.
Proof.
  intros Hlast Hwin. split.
  - assert (Hcool : cooling self (now_at env (clock_reads w)) = true).
    { unfold cooling. rewrite Hlast. apply Qltb_lt. apply Hwin. lia. }
    destruct (send_when_cooling env (ev_voltage ev) (ev_area ev) (ev_severity ev)
                (ev_info ev) self w Hcool) as (last' & Hlast' & Hsend).
    assert (last' = last) by congruence. subst last'. exact Hsend.
  - destruct (send_all_when_cooling env self last (ev :: events) w Hlast Hwin)
      as (w' & Hrun & Hout & _ & Hclk & _).
    exists w'. repeat split; assumption.
Qed.

Lemma C2_cooling_suppresses_witness :
  last_alert_time notifier_alerted = Some alerted_at
  /\ send_event env_up spike_295 notifier_alerted io0 =
       (Return false, notifier_alerted,
        io_log INFO
          ("Alert cooldown active. Skipping alert. ("
           ++ format_1f (total_seconds (sub (now_at env_up 0) alerted_at))
           ++ "s remaining)")
          (io_tick io0))
  /\ exists w',
       send_all env_up [spike_295; spike_295; spike_295] notifier_alerted io0 =
         (Return [false; false; false], notifier_alerted, w')
       /\ outbox w' = []
       /\ clock_reads w' = 3%nat.
Proof.
  split; [reflexivity|].
  apply (C2_cooling_suppresses env_up notifier_alerted alerted_at spike_295
           [spike_295; spike_295] io0).
  - reflexivity.
  - intros k Hk. destruct k as [|[|[|k]]]; [reflexivity | reflexivity | reflexivity |].
    cbn in Hk. lia.
Defined.

(** C2 as claimed fails in its conclusion: within one cooldown window two
    spike events make two delivery attempts when the first delivery
    fails. *)
Lemma C2_two_attempts_in_one_window :
  ~ (forall (env : environment) (events : list spike_event)
            (self : VoltageSpikeNotifier) (w : io),
       (forall k, (clock_reads w <= k
                   <= clock_reads (io_of (send_all env events self w)))%nat ->
          (total_seconds (sub (now_at env k) (now_at env (clock_reads w)))
           < inject_Z (alert_cooldown self))%Q) ->
       (length (outbox (io_of (send_all env events self w)))
        <= S (length (outbox w)))%nat).
Proof.
  intros H. specialize (H env_down [spike_295; spike_295] notifier0 io0).
  assert (Hclk : clock_reads (io_of (send_all env_down [spike_295; spike_295]
                                       notifier0 io0)) = 2%nat)
    by (vm_compute; reflexivity).
  assert (Hout : length (outbox (io_of (send_all env_down [spike_295; spike_295]
                                          notifier0 io0))) = 2%nat)
    by (vm_compute; reflexivity).
  rewrite Hclk, Hout in H. cbn [length outbox io0] in H.
  assert (Hle : (2 <= 1)%nat).
  { apply H. intros k Hk.
    destruct k as [|[|[|k]]]; [reflexivity | reflexivity | reflexivity |].
    cbn in Hk. lia. }
  lia.
Qed.

(** *** The webhook entry point *)

Lemma severity_for_cases (v : Q) :
  ((300 <= v)%Q /\ severity_for v = "CRITICAL")
  \/ ((280 <= v)%Q /\ (v < 300)%Q /\ severity_for v = "HIGH")
  \/ ((260 <= v)%Q /\ (v < 280)%Q /\ severity_for v = "MEDIUM")
  \/ ((v < 260)%Q /\ severity_for v = "LOW").
Proof.
  unfold severity_for.
  destruct (Qle_bool 300 v) eqn:E300.
  { left. split; [apply Qle_bool_iff; exact E300 | reflexivity]. }
  assert (H300 : (v < 300)%Q).
  { apply Qnot_le_lt. intros H. apply Qle_bool_iff in H. congruence. }
  destruct (Qle_bool 280 v) eqn:E280.
  { right. left. split; [apply Qle_bool_iff; exact E280 | split; [exact H300 | reflexivity]]. }
  assert (H280 : (v < 280)%Q).
  { apply Qnot_le_lt. intros H. apply Qle_bool_iff in H. congruence. }
  destruct (Qle_bool 260 v) eqn:E260.
  { right. right. left.
    split; [apply Qle_bool_iff; exact E260 | split; [exact H280 | reflexivity]]. }
  right. right. right. split; [|reflexivity].
  apply Qnot_le_lt. intros H. apply Qle_bool_iff in H. congruence.
Qed.

(** C4. For a numeric voltage [v], [handle_voltage_data] grades it
    CRITICAL exactly from 300 up, HIGH exactly on [280, 300), MEDIUM
    exactly on [260, 280) and LOW exactly below 260, and it calls the
    notifier's send, with that grade, exactly when [v] exceeds 234:
    otherwise it only reads the clock. *)
Theorem C4_webhook_thresholds
  (env : environment) (data : list (string * json)) (h : WebhookHandler) (w : io)
  (v : Q) :
  as_number (dict_get data "voltage" (JInt 0)) = Return v ->
  let area := py_format env (dict_get data "area" (JStr "Unknown Area")) in
  let timestamp :=
    dict_get data "timestamp" (JStr (isoformat (now_at env (clock_reads w)))) in
  let call :=
    send_voltage_spike_alert env v (Some area) (Some (severity_for v))
      (Some [("Timestamp", timestamp); ("Threshold", JStr "234V")])
      (notifier h) (io_tick w) in
  (severity_for v = "CRITICAL" <-> (300 <= v)%Q)
  /\ (severity_for v = "HIGH" <-> (280 <= v)%Q /\ (v < 300)%Q)
  /\ (severity_for v = "MEDIUM" <-> (260 <= v)%Q /\ (v < 280)%Q)
  /\ (severity_for v = "LOW" <-> (v < 260)%Q)
  /\ ((234 < v)%Q ->
      handle_voltage_data env data h w = (Return tt, mkHandler (state_of call), io_of call))
  /\ ((v <= 234)%Q ->
      handle_voltage_data env data h w = (Return tt, h, io_tick w))
  /\ (length (logged (io_of (handle_voltage_data env data h w)))
        = S (length (logged w)) <-> (234 < v)%Q).
Proof.
  intros Hv area timestamp call.
  assert (Hgrade :
    (severity_for v = "CRITICAL" <-> (300 <= v)%Q)
    /\ (severity_for v = "HIGH" <-> (280 <= v)%Q /\ (v < 300)%Q)
    /\ (severity_for v = "MEDIUM" <-> (260 <= v)%Q /\ (v < 280)%Q)
    /\ (severity_for v = "LOW" <-> (v < 260)%Q)).
  { destruct (severity_for_cases v)
      as [[H1 ->] | [(H1 & H2 & ->) | [(H1 & H2 & ->) | [H1 ->]]]];
      repeat split; intros; try discriminate; try reflexivity; lra. }
  destruct Hgrade as (Hc & Hh & Hm & Hl).
  destruct (send_returns env v (Some area) (Some (severity_for v))
              (Some [("Timestamp", timestamp); ("Threshold", JStr "234V")])
              (notifier h) (io_tick w)) as (b & self' & w' & record & Hcall & Hlog).
  assert (Hyes : (234 < v)%Q ->
    handle_voltage_data env data h w = (Return tt, mkHandler (state_of call), io_of call)).
  { intros Hgt. apply Qltb_lt in Hgt.
    unfold handle_voltage_data. unfold bind at 1. unfold datetime_now at 1.
    unfold bind at 1. rewrite Hv. unfold lift_outcome at 1. rewrite Hgt.
    unfold bind at 1. unfold zoom.
    fold area. fold timestamp. fold call. subst call. rewrite Hcall. reflexivity. }
  assert (Hno : (v <= 234)%Q ->
    handle_voltage_data env data h w = (Return tt, h, io_tick w)).
  { intros Hle. apply Qltb_ge in Hle.
    unfold handle_voltage_data. unfold bind at 1. unfold datetime_now at 1.
    unfold bind at 1. rewrite Hv. unfold lift_outcome at 1. rewrite Hle. reflexivity. }
  repeat (split; [assumption|]).
  destruct (Qlt_le_dec 234 v) as [Hgt|Hle].
  - rewrite (Hyes Hgt). subst call. rewrite Hcall. cbn. rewrite Hlog.
    rewrite length_app. cbn. split; [intros _; exact Hgt | intros _; lia].
  - rewrite (Hno Hle). cbn. split; [intros Hlen; lia | intros Hgt; lra].
Qed.

Lemma C4_webhook_thresholds_witness :
  as_number (dict_get [("voltage", JFloat (2341 # 10))] "voltage" (JInt 0))
    = Return (2341 # 10)
  /\ severity_for (2341 # 10) = "LOW"
  /\ length (logged (io_of (handle_voltage_data env_up
                              [("voltage", JFloat (2341 # 10))]
                              (mkHandler notifier0) io0))) = 1%nat.
Proof.
  split; [reflexivity|].
  pose proof (C4_webhook_thresholds env_up [("voltage", JFloat (2341 # 10))]
                (mkHandler notifier0) io0 (2341 # 10) eq_refl)
    as (_ & _ & _ & Hlow & _ & _ & Hcall).
  split.
  - apply Hlow. reflexivity.
  - apply Hcall. reflexivity.
Defined.

(** The two sides of the 234 threshold: at 234 nothing reaches the
    notifier, at 234.1 one message goes out, graded LOW. *)
Lemma webhook_at_234 :
  handle_voltage_data env_up [("voltage", JInt 234)] (mkHandler notifier0) io0
    = (Return tt, mkHandler notifier0, io_tick io0).
Proof. reflexivity. Qed.

Lemma webhook_at_234_1 :
  length (outbox (io_of (handle_voltage_data env_up [("voltage", JFloat (2341 # 10))]
                           (mkHandler notifier0) io0))) = 1%nat.
Proof. vm_compute. reflexivity. Qed.

(** *** Severity defaults *)

Lemma unrecognized_gets_HIGH_motif (severity : string) :
  recognized severity = false ->
  dict_get severity_config severity severity_config_HIGH = severity_config_HIGH.
Proof.
  unfold recognized, dict_get, severity_config. cbn [existsb dict_find].
  intros H. repeat (apply orb_false_iff in H; destruct H as [?E H]).
  rewrite E, E0, E1, E2. reflexivity.
Qed.

(** C7, as the code has it.  The notifier's send takes an omitted severity
    as HIGH.  A severity outside LOW, MEDIUM, HIGH, CRITICAL is not
    rejected: the send goes on to its delivery attempt with the emoji and
    colour of HIGH, while the severity line of the message shows the
    caller's word.  The HTTP endpoint takes an absent severity as MEDIUM
    and prints any given one as it is. *)
Theorem C7_severity_defaults
  (env : environment) (voltage : Q) (area : option string)
  (additional_info : option (list (string * json)))
  (self : VoltageSpikeNotifier) (w : io) (severity : string) :
  recognized severity = false ->
  cooling self (now_at env (clock_reads w)) = false ->
  send_voltage_spike_alert env voltage area None additional_info self w
    = send_voltage_spike_alert env voltage area (Some "HIGH") additional_info self w
  /\ (exists msg,
        outbox (io_of (send_voltage_spike_alert env voltage area (Some severity)
                         additional_info self w))
          = List.app (outbox w) [msg]
        /\ out_text msg =
             add_additional_info env
               (alert_message severity_config_HIGH severity voltage
                  (default "Unknown Area" area)
                  (now_at env (clock_reads (after_gate self w))))
               additional_info)
  /\ (forall fields g,
        exists resp w',
          telegram_alert env (Return (JObj fields)) g w = (Return resp, g, w')
          /\ status resp = 200
          /\ In ("   Severity: "
                 ++ py_format env (dict_get fields "severity" (JStr "MEDIUM")))
               (stdout w')).
Proof.
  intros Hsev Hcool. split; [reflexivity|]. split.
  - rewrite (send_when_not_cooling env _ _ _ _ self w Hcool).
    rewrite deliver_alert_run.
    assert (Hout : outbox (after_gate self w) = outbox w).
    { unfold after_gate. destruct (last_alert_time self); reflexivity. }
    eexists. split.
    + destruct (transport env _ _); cbn; rewrite Hout; reflexivity.
    + unfold alert_outbound. cbn [out_text default].
      rewrite (unrecognized_gets_HIGH_motif severity Hsev). reflexivity.
  - intros fields g.
    destruct (telegram_alert_on_object env fields g w) as (w' & Hrun & Hstd & _).
    do 2 eexists. split; [exact Hrun|]. split; [reflexivity|].
    rewrite Hstd. apply in_or_app. right. cbn. auto.
Qed.

Lemma C7_severity_defaults_witness :
  recognized "BOGUS" = false
  /\ cooling notifier0 (now_at env_up 0) = false
  /\ exists msg,
       outbox (io_of (send_voltage_spike_alert env_up (2955 # 10) None (Some "BOGUS")
                        None notifier0 io0)) = [msg]
       /\ out_text msg =
            alert_message severity_config_HIGH "BOGUS" (2955 # 10) "Unknown Area"
              (now_at env_up 0).
Proof.
  split; [reflexivity|]. split; [reflexivity|].
  pose proof (C7_severity_defaults env_up (2955 # 10) None None notifier0 io0 "BOGUS"
                eq_refl eq_refl) as (_ & Hmsg & _).
  exact Hmsg.
Defined.

(** C7 as claimed fails: the message sent for an unrecognised severity is
    not the one sent for HIGH, its severity line carries the caller's
    word. *)
Lemma C7_unrecognized_severity_is_shown :
  ~ (forall (env : environment) (voltage : Q) (area : option string)
            (additional_info : option (list (string * json)))
            (self : VoltageSpikeNotifier) (w : io) (severity : string),
       recognized severity = false ->
       outbox (io_of (send_voltage_spike_alert env voltage area (Some severity)
                        additional_info self w))
       = outbox (io_of (send_voltage_spike_alert env voltage area (Some "HIGH")
                          additional_info self w))).
Proof.
  intros H.
  specialize (H env_up (2955 # 10) None None notifier0 io0 "BOGUS" eq_refl).
  vm_compute in H. discriminate H.
Qed.

(** The HTTP endpoint on a submission without severity: MEDIUM, not HIGH. *)
Lemma endpoint_default_severity_is_MEDIUM :
  In "   Severity: MEDIUM"
     (stdout (io_of (telegram_alert env_up (Return (JObj [("voltage", JInt 250)]))
                       initial io0))).
Proof. vm_compute. auto 6. Qed.

(* ================================================================== *)
(** ** Further properties of the feed *)

Section LoadingContent.

Variable env : environment.

Lemma load_row_as_reading (row : csv_row) (g : globals) (w : io) :
  load_row env row g w =
    match reading_of_row env row with
    | Return r => (Return tt, set_csv_data (csv_data g ++ [r])%list g, w)
    | Raise e => (Raise e, g, w)
    end.
Proof.
  unfold load_row, reading_of_row, bind, lift_outcome, modify.
  destruct (row_item row "Current (A)") as [cell|e]; [|reflexivity].
  destruct (py_float env cell) as [c|e]; [|reflexivity].
  destruct (row_item row "Timestamp") as [ts|e]; reflexivity.
Qed.

(** The loop appends the readings of the rows before the first failure. *)
Lemma for_each_load_row_as_readings (rows : list csv_row) :
  forall (g : globals) (w : io),
    for_each rows (load_row env) g w =
      (match snd (readings_of_rows env rows) with
       | None => Return tt
       | Some e => Raise e
       end,
       set_csv_data (csv_data g ++ fst (readings_of_rows env rows))%list g,
       w).
Proof.
  induction rows as [|row rows IH]; intros g w.
  - cbn. rewrite app_nil_r. destruct g; reflexivity.
  - cbn [for_each readings_of_rows]. unfold bind.
    rewrite load_row_as_reading.
    destruct (reading_of_row env row) as [r|e].
    + rewrite IH. destruct (readings_of_rows env rows) as [l e]. cbn.
      rewrite <- app_assoc. reflexivity.
    + cbn. rewrite app_nil_r. destruct g; reflexivity.
Qed.

Lemma load_csv_data_loaded (src : source) (g : globals) (w : io) :
  csv_data (state_of (load_csv_data env src g w)) = loaded env src.
Proof.
  unfold load_csv_data, loaded.
  destruct src as [e|rows failure]; [reflexivity|].
  unfold bind at 1. unfold modify at 1. unfold try_except.
  unfold bind at 1. unfold bind at 1.
  rewrite for_each_load_row_as_readings.
  destruct (readings_of_rows env rows) as [l [e|]]; cbn [fst snd];
    destruct failure as [e'|]; reflexivity.
Qed.

Lemma readings_of_rows_ok (rows : list csv_row) :
  forallb (row_ok env) rows = true ->
  snd (readings_of_rows env rows) = None
  /\ Forall2 (reading_matches env) rows (fst (readings_of_rows env rows)).
Proof.
  induction rows as [|row rows IH]; intros Hok.
  - split; [reflexivity | constructor].
  - cbn [forallb] in Hok. apply andb_true_iff in Hok. destruct Hok as [Hrow Hrest].
    destruct (IH Hrest) as [Hnone Hall].
    cbn [readings_of_rows]. unfold row_ok in Hrow. unfold reading_of_row.
    destruct (row_item row "Current (A)") as [cell|e] eqn:Ecell; [|discriminate].
    destruct (py_float env cell) as [c|e] eqn:Ec; [|discriminate].
    destruct (row_item row "Timestamp") as [ts|e] eqn:Ets; [|discriminate].
    destruct (readings_of_rows env rows) as [l e]. cbn in *.
    split; [exact Hnone|]. constructor; [|exact Hall].
    unfold reading_matches. cbn. split; [exact Ets | eauto].
Qed.

End LoadingContent.

(** X1. [load_csv_data] replaces the feed, it never appends to it: what
    it leaves in [csv_data] depends on the source alone, not on what was
    there before, so that loading the same source twice in a row gives what
    loading it once gives. *)
Theorem load_replaces_feed
  (env : environment) (src : source) (g g' : globals) (w w' : io) :
  csv_data (state_of (load_csv_data env src g w))
    = csv_data (state_of (load_csv_data env src g' w'))
  /\ csv_data (state_of ((load_csv_data env src ;; load_csv_data env src) g w))
     = csv_data (state_of (load_csv_data env src g w)).
Proof.
  split.
  - rewrite !load_csv_data_loaded. reflexivity.
  - destruct (load_csv_data_run env src g w) as (l & line & Hrun & _).
    unfold bind. rewrite Hrun.
    rewrite load_csv_data_loaded. rewrite <- Hrun.
    rewrite load_csv_data_loaded. reflexivity.
Qed.

Lemma load_well_formed_run
  (env : environment) (rows : list csv_row) (g : globals) (w : io) :
  forallb (row_ok env) rows = true ->
  exists l,
    load_csv_data env (Opened rows None) g w =
      (Return tt, set_csv_data l g,
       io_print ("Loaded " ++ decimal (Z.of_nat (length rows)) ++ " data points from CSV")
         w)
    /\ length l = length rows
    /\ Forall2 (reading_matches env) rows l.
Proof.
  intros Hok.
  destruct (readings_of_rows_ok env rows Hok) as [Hnone Hall].
  exists (fst (readings_of_rows env rows)).
  assert (Hlen : length (fst (readings_of_rows env rows)) = length rows).
  { symmetry. eapply Forall2_length. exact Hall. }
  split; [|split; assumption].
  unfold load_csv_data.
  unfold bind at 1. unfold modify at 1. unfold try_except.
  unfold bind at 1. unfold bind at 1.
  rewrite for_each_load_row_as_readings. rewrite Hnone.
  unfold bind at 1. unfold get at 1. cbn. rewrite Hlen. reflexivity.
Qed.

(** X2. When the file opens, reads to its end and every row has a
    timestamp and a current that converts, [load_csv_data] leaves one
    reading per row, in row order, each with the row's timestamp and the
    converted current, and prints how many it loaded. *)
Theorem load_well_formed_content
  (env : environment) (rows : list csv_row) (g : globals) (w : io) :
  forallb (row_ok env) rows = true ->
  exists l,
    load_csv_data env (Opened rows None) g w =
      (Return tt, set_csv_data l g,
       io_print ("Loaded " ++ decimal (Z.of_nat (length rows)) ++ " data points from CSV")
         w)
    /\ csv_data (state_of (load_csv_data env (Opened rows None) g w)) = l
    /\ length l = length rows
    /\ Forall2 (reading_matches env) rows l.
Proof.
  intros Hok.
  destruct (load_well_formed_run env rows g w Hok) as (l & Hrun & Hlen & Hall).
  exists l. rewrite Hrun. auto.
Qed.

Lemma load_well_formed_content_witness :
  exists l,
    load_csv_data env_up source_one_row feed_ab_at_1 io0 =
      (Return tt, set_csv_data l feed_ab_at_1,
       io_print "Loaded 1 data points from CSV" io0)
    /\ csv_data (state_of (load_csv_data env_up source_one_row feed_ab_at_1 io0)) = l
    /\ length l = 1%nat
    /\ Forall2 (reading_matches env_up)
         [ [ ("Timestamp", Some "10:00:00"); ("Current (A)", Some "0.12") ] ] l.
Proof.
  apply (load_well_formed_content env_up
           [ [ ("Timestamp", Some "10:00:00"); ("Current (A)", Some "0.12") ] ]
           feed_ab_at_1 io0).
  reflexivity.
Defined.

(** *** Reading the feed *)

Lemma nth_error_rotate {A} (l : list A) (c : Z) (j : nat) :
  0 <= c < Z.of_nat (length l) ->
  (j < length l)%nat ->
  nth_error (rotate (Z.to_nat c) l) j
    = nth_error l (Z.to_nat ((c + Z.of_nat j) mod Z.of_nat (length l))).
Proof.
  intros Hc Hj. unfold rotate.
  destruct (Z_lt_le_dec (c + Z.of_nat j) (Z.of_nat (length l))) as [Hlt|Hge].
  - rewrite Z.mod_small by lia.
    rewrite nth_error_app1 by (rewrite length_skipn; lia).
    rewrite nth_error_skipn. f_equal. lia.
  - assert (Hmod : (c + Z.of_nat j) mod Z.of_nat (length l)
                   = c + Z.of_nat j - Z.of_nat (length l)).
    { symmetry. apply Z.mod_unique with (q := 1); lia. }
    rewrite Hmod.
    rewrite nth_error_app2 by (rewrite length_skipn; lia).
    rewrite length_skipn. rewrite nth_error_firstn.
    destruct (Nat.ltb_spec (j - (length l - Z.to_nat c)) (Z.to_nat c)) as [Hin|Hout];
      [|lia].
    f_equal. lia.
Qed.

Lemma rotate_length {A} (i : nat) (l : list A) : length (rotate i l) = length l.
Proof.
  unfold rotate. rewrite length_app, length_skipn, length_firstn. lia.
Qed.

(** X3. On a feed of [L] readings whose cursor is in range, [L] calls of
    [get_next_data_point] return every reading exactly once, in feed order
    starting at the cursor and wrapping round, and leave the cursor where
    it started. *)
Theorem full_cycle_reads_the_feed_once (g : globals) (w : io) :
  cursor_ok g ->
  call_n (length (csv_data g)) get_next_data_point g w =
    (Return (map Some (rotate (Z.to_nat (current_data_index g)) (csv_data g))), g, w).
Proof.
  intros Hok.
  destruct (call_n_get_next (length (csv_data g)) g w Hok) as (rs & Hrun & Hlen & Hnth).
  pose proof Hok as [H0 H1].
  assert (Hrs : rs = map Some (rotate (Z.to_nat (current_data_index g)) (csv_data g))).
  { apply nth_error_ext. intros j.
    destruct (Nat.lt_ge_cases j (length (csv_data g))) as [Hj|Hj].
    - rewrite (Hnth j Hj), nth_error_map, nth_error_rotate by (assumption || lia).
      destruct (nth_error (csv_data g) _) eqn:E; [reflexivity|].
      apply nth_error_None in E.
      pose proof (Z.mod_pos_bound (current_data_index g + Z.of_nat j)
                    (Z.of_nat (length (csv_data g)))). lia.
    - transitivity (@None (option reading)).
      + apply nth_error_None. lia.
      + symmetry. apply nth_error_None. rewrite length_map, rotate_length. lia. }
  assert (Hg : set_current_data_index
                 ((current_data_index g + Z.of_nat (length (csv_data g)))
                  mod Z.of_nat (length (csv_data g))) g = g).
  { destruct g as [tn l i]. unfold set_current_data_index. cbn in *.
    f_equal. rewrite <- (Z.mul_1_l (Z.of_nat (length l))) at 1.
    rewrite Z.mod_add by lia. apply Z.mod_small. lia. }
  rewrite Hrun, Hrs, Hg. reflexivity.
Qed.

Lemma full_cycle_reads_the_feed_once_witness :
  call_n 2 get_next_data_point feed_ab_at_1 io0 =
    (Return [Some reading_b; Some reading_a], feed_ab_at_1, io0).
Proof.
  apply (full_cycle_reads_the_feed_once feed_ab_at_1 io0).
  unfold cursor_ok. cbn. lia.
Defined.

Lemma index_beyond_end {A} (l : list A) (i : Z) :
  Z.of_nat (length l) <= i -> index l i = Raise index_error.
Proof.
  intros Hi. unfold index.
  replace (i <? 0) with false by (symmetry; apply Z.ltb_ge; lia).
  replace (i <? Z.of_nat (length l)) with false by (symmetry; apply Z.ltb_ge; lia).
  rewrite andb_false_r. reflexivity.
Qed.

Lemma get_voltage_data_stale (env : environment) (g : globals) (w : io) :
  csv_data g <> [] ->
  Z.of_nat (length (csv_data g)) <= current_data_index g ->
  get_voltage_data env g w =
    (Return (error_response "Error retrieving data"), g,
     io_print "Error getting voltage data: list index out of range" w).
Proof.
  intros Hne Hi.
  unfold get_voltage_data, try_except. unfold bind at 1.
  unfold get_next_data_point. unfold bind at 1. unfold get at 1.
  destruct (csv_data g) as [|x xs] eqn:E; [congruence|].
  unfold bind at 1. unfold lift_outcome. rewrite index_beyond_end by exact Hi.
  reflexivity.
Qed.

(** X4. When the cursor stands at or beyond the end of a non-empty feed
    (which [load_csv_data] brings about when it replaces the feed by a
    shorter one, as it keeps the cursor), [get_voltage_data] answers 500
    with 'Error retrieving data', prints the index error and changes
    nothing; so every further call fails in the same way. *)
Theorem stale_cursor_fails_for_good
  (env : environment) (g : globals) (w : io) (k : nat) :
  csv_data g <> [] ->
  Z.of_nat (length (csv_data g)) <= current_data_index g ->
  exists w',
    call_n k (get_voltage_data env) g w =
      (Return (repeat (error_response "Error retrieving data") k), g, w')
    /\ stdout w' =
         List.app (stdout w)
           (repeat "Error getting voltage data: list index out of range" k).
Proof.
  intros Hne Hi. revert w.
  induction k as [|k IH]; intros w.
  - exists w. cbn. rewrite app_nil_r. split; reflexivity.
  - destruct (IH (io_print "Error getting voltage data: list index out of range" w))
      as (w' & Hrun & Hout).
    exists w'. cbn [call_n repeat]. unfold bind at 1.
    rewrite (get_voltage_data_stale env g w Hne Hi).
    unfold bind at 1. rewrite Hrun. split; [reflexivity|].
    rewrite Hout. cbn. rewrite <- app_assoc. reflexivity.
Qed.

Lemma stale_cursor_fails_for_good_witness :
  let g := state_of (load_csv_data env_up source_one_row feed_ab_at_1 io0) in
  length (csv_data g) = 1%nat
  /\ current_data_index g = 1
  /\ exists w',
       call_n 3 (get_voltage_data env_up) g io0 =
         (Return (repeat (error_response "Error retrieving data") 3), g, w')
       /\ stdout w' =
            List.app (stdout io0)
              (repeat "Error getting voltage data: list index out of range" 3).
Proof.
  intros g. split; [reflexivity|]. split; [reflexivity|].
  apply (stale_cursor_fails_for_good env_up g io0 3).
  - discriminate.
  - vm_compute. discriminate.
Defined.

(** *** Serving requests *)

Lemma telegram_alert_handler_ok
  (env : environment) (body : outcome json) (g : globals) (w : io) :
  handler_ok (POST_telegram_alert body) g w (telegram_alert env body g w).
Proof.
  unfold handler_ok.
  destruct body as [data|e].
  - destruct data; do 3 eexists; (split; [reflexivity|]); cbn; auto 10.
  - do 3 eexists. split; [reflexivity|]. cbn. auto 10.
Qed.

Lemma get_voltage_data_handler_ok (env : environment) (g : globals) (w : io) :
  handler_ok GET_voltage_data g w (get_voltage_data env g w).
Proof.
  unfold handler_ok.
  unfold get_voltage_data, try_except. unfold bind at 1.
  unfold get_next_data_point. unfold bind at 1. unfold get at 1.
  destruct (csv_data g) as [|x xs] eqn:E.
  - do 3 eexists. split; [reflexivity|]. cbn. rewrite E. auto 10.
  - unfold bind at 1. unfold lift_outcome.
    destruct (index (x :: xs) (current_data_index g)) as [d|e] eqn:Ei.
    + do 3 eexists. split; [reflexivity|].
      do 5 (split; [cbn; auto|]). intros _. split; [|reflexivity].
      right. unfold cursor_ok. cbn. rewrite E.
      apply Z.mod_pos_bound. cbn. lia.
    + do 3 eexists. split; [reflexivity|].
      do 5 (split; [cbn; auto|]). intros [Hnil|[H0 H1]]; [congruence|].
      exfalso. rewrite E in H1.
      destruct (nth_error (x :: xs) (Z.to_nat (current_data_index g))) as [d|] eqn:En.
      * rewrite (index_in_range _ _ d H0 En) in Ei. discriminate.
      * apply nth_error_None in En. lia.
Qed.

Lemma dispatch_handler_ok (env : environment) (r : request) (g : globals) (w : io) :
  handler_ok r g w (dispatch env r g w).
Proof.
  destruct r as [|body| |]; cbn [dispatch].
  - unfold handler_ok. do 3 eexists. split; [reflexivity|]. cbn. auto 10.
  - apply telegram_alert_handler_ok.
  - apply get_voltage_data_handler_ok.
  - unfold handler_ok. rewrite get_csv_data_run.
    do 3 eexists. split; [reflexivity|]. cbn. auto 10.
Qed.

Lemma serve_run (env : environment) (requests : list request) :
  forall (g : globals) (w : io),
  exists resps g' w',
    serve env requests g w = (Return resps, g', w')
    /\ length resps = length requests
    /\ Forall (fun resp => status resp = 200 \/ status resp = 500) resps
    /\ csv_data g' = csv_data g
    /\ telegram_notifier g' = telegram_notifier g
    /\ outbox w' = outbox w
    /\ logged w' = logged w
    /\ (feed_ok g -> feed_ok g' /\ Forall2 answered_ok requests resps).
Proof.
  induction requests as [|r requests IH]; intros g w.
  - exists [], g, w. split; [reflexivity|].
    do 6 (split; [cbn; auto|]). intros H. split; [exact H|constructor].
  - destruct (dispatch_handler_ok env r g w)
      as (resp & g1 & w1 & Hrun & Hst & Hcsv & Htn & Hout & Hlog & Hinv).
    destruct (IH g1 w1)
      as (resps & g' & w' & Hrest & Hlen & Hall & Hcsv' & Htn' & Hout' & Hlog' & Hinv').
    exists (resp :: resps), g', w'. cbn [serve]. unfold bind at 1. rewrite Hrun.
    unfold bind at 1. rewrite Hrest.
    split; [reflexivity|]. split; [cbn; lia|]. split; [constructor; assumption|].
    split; [congruence|]. split; [congruence|]. split; [congruence|].
    split; [congruence|].
    intros Hok. destruct (Hinv Hok) as [Hok1 Hans]. destruct (Hinv' Hok1) as [Hok' Hanss].
    split; [exact Hok' | constructor; assumption].
Qed.

(** X5. Whatever requests the API routes serve, and from whatever state,
    no handler raises: each request gets a response with status 200 or
    500.  Serving never changes the loaded readings or the notifier slot,
    never attempts a delivery and never writes to the logger. *)
Theorem serving_never_sends_nor_rewrites_feed
  (env : environment) (requests : list request) (g : globals) (w : io) :
  exists resps g' w',
    serve env requests g w = (Return resps, g', w')
    /\ length resps = length requests
    /\ Forall (fun resp => status resp = 200 \/ status resp = 500) resps
    /\ csv_data g' = csv_data g
    /\ telegram_notifier g' = telegram_notifier g
    /\ outbox w' = outbox w
    /\ logged w' = logged w.
Proof.
  destruct (serve_run env requests g w)
    as (resps & g' & w' & Hrun & Hlen & Hall & Hcsv & Htn & Hout & Hlog & _).
  exists resps, g', w'. auto 10.
Qed.

(** X6. Serving keeps the feed invariant (the cursor is in range unless
    the feed is empty), and while it holds every GET route answers 200:
    only the alert route can answer 500. *)
Theorem serving_keeps_feed_invariant
  (env : environment) (requests : list request) (g : globals) (w : io) :
  feed_ok g ->
  exists resps,
    result_of (serve env requests g w) = Return resps
    /\ feed_ok (state_of (serve env requests g w))
    /\ Forall2 answered_ok requests resps.
Proof.
  intros Hok.
  destruct (serve_run env requests g w) as (resps & g' & w' & Hrun & _ & _ & _ & _ & _ & _ & Hinv).
  destruct (Hinv Hok) as [Hok' Hans].
  exists resps. rewrite Hrun. auto.
Qed.

Lemma serving_keeps_feed_invariant_witness :
  exists resps,
    result_of (serve env_up [GET_voltage_data; GET_csv_data; GET_voltage_data; GET_status]
                 feed_ab_at_1 io0) = Return resps
    /\ feed_ok (state_of (serve env_up
                            [GET_voltage_data; GET_csv_data; GET_voltage_data; GET_status]
                            feed_ab_at_1 io0))
    /\ Forall2 answered_ok
         [GET_voltage_data; GET_csv_data; GET_voltage_data; GET_status] resps.
Proof.
  apply (serving_keeps_feed_invariant env_up
           [GET_voltage_data; GET_csv_data; GET_voltage_data; GET_status]
           feed_ab_at_1 io0).
  right. unfold cursor_ok. cbn. lia.
Defined.

Lemma get_voltage_data_step (env : environment) (g : globals) (w : io) (r : reading) :
  0 <= current_data_index g ->
  nth_error (csv_data g) (Z.to_nat (current_data_index g)) = Some r ->
  get_voltage_data env g w =
    (Return (reading_response r),
     set_current_data_index
       ((current_data_index g + 1) mod Z.of_nat (length (csv_data g))) g,
     w).
Proof.
  intros Hi Hr. unfold get_voltage_data, try_except. unfold bind at 1.
  rewrite (get_next_data_point_step g w r Hi Hr). reflexivity.
Qed.

(** The [j]-th of [k] voltage requests in a row is answered with the
    reading [j] places after the cursor, counted cyclically. *)
Lemma serve_voltage_requests (env : environment) (k : nat) :
  forall (g : globals) (w : io),
  cursor_ok g ->
  exists resps g',
    serve env (repeat GET_voltage_data k) g w = (Return resps, g', w)
    /\ length resps = k
    /\ forall j, (j < k)%nat ->
         nth_error resps j =
           option_map reading_response
             (nth_error (csv_data g)
                (Z.to_nat ((current_data_index g + Z.of_nat j)
                           mod Z.of_nat (length (csv_data g))))).
Proof.
  induction k as [|k IH]; intros g w Hok.
  - exists [], g. cbn. repeat split. intros j Hj. lia.
  - destruct (cursor_ok_reading g Hok) as [r Hr].
    pose proof (cursor_ok_advance g Hok) as Hok'.
    pose proof Hok as [H0 H1].
    set (L := Z.of_nat (length (csv_data g))) in *.
    destruct (IH (set_current_data_index ((current_data_index g + 1) mod L) g) w Hok')
      as (resps & g' & Hrun & Hlen & Hnth).
    exists (reading_response r :: resps), g'. split; [|split].
    + cbn [repeat serve dispatch]. unfold bind at 1.
      rewrite (get_voltage_data_step env g w r H0 Hr). fold L.
      unfold bind at 1. rewrite Hrun. reflexivity.
    + cbn. lia.
    + intros [|j] Hj.
      * cbn [nth_error]. rewrite Z.add_0_r, Z.mod_small by (fold L; lia).
        rewrite Hr. reflexivity.
      * cbn [nth_error]. rewrite Hnth by lia. cbn. fold L.
        rewrite Zplus_mod_idemp_l.
        replace (current_data_index g + 1 + Z.of_nat j)
          with (current_data_index g + Z.of_nat (S j)) by lia.
        reflexivity.
Qed.

Lemma Forall2_nth_error {A B} (P : A -> B -> Prop) (l1 : list A) (l2 : list B) :
  Forall2 P l1 l2 ->
  forall i a, nth_error l1 i = Some a -> exists b, nth_error l2 i = Some b /\ P a b.
Proof.
  induction 1 as [|x y l1 l2 Hxy Hrest IH]; intros i a Hi.
  - destruct i; discriminate.
  - destruct i as [|i]; cbn in *.
    + injection Hi as <-. eauto.
    + apply IH. exact Hi.
Qed.

Lemma reading_response_serves_row (env : environment) (row : csv_row) (r : reading) :
  reading_matches env row r -> serves_row env row (reading_response r).
Proof.
  intros (Hts & cell & Hcell & Hc). unfold serves_row.
  split; [reflexivity|]. split; [reflexivity|]. split.
  - exists (timestamp r). split; [exact Hts | reflexivity].
  - exists cell, (current r). split; [exact Hcell|]. split; [exact Hc | reflexivity].
Qed.

(** X7. Started as a script on a CSV file whose rows all convert, the
    application answers the [j]-th voltage request with status 200 and the
    timestamp and the current of row [j mod n] of the file: the rows come
    in file order and start over after the last. *)
Theorem startup_serves_rows_in_order
  (env : environment) (rows : list csv_row) (k : nat) (w : io) :
  rows <> [] ->
  forallb (row_ok env) rows = true ->
  exists resps,
    result_of (main env (Opened rows None) (repeat GET_voltage_data k) initial w)
      = Return resps
    /\ length resps = k
    /\ forall j, (j < k)%nat ->
         exists row resp,
           nth_error rows (j mod length rows)%nat = Some row
           /\ nth_error resps j = Some resp
           /\ serves_row env row resp.
Proof.
  intros Hne Hok.
  destruct (load_well_formed_run env rows initial w Hok) as (l & Hload & Hlen & Hall).
  assert (Hcur : cursor_ok (set_csv_data l initial)).
  { unfold cursor_ok. cbn. destruct rows; [congruence|]. cbn in Hlen. lia. }
  set (w1 := io_print
               ("Loaded " ++ decimal (Z.of_nat (length (csv_data (set_csv_data l initial))))
                ++ " data points from CSV")
               (io_print "Starting Flask server..."
                  (io_print ("Loaded " ++ decimal (Z.of_nat (length rows))
                             ++ " data points from CSV") w))).
  destruct (serve_voltage_requests env k (set_csv_data l initial) w1 Hcur)
    as (resps & g' & Hrun & Hk & Hnth).
  exists resps.
  split; [|split; [exact Hk|]].
  - unfold main. unfold bind at 1. rewrite Hload.
    unfold bind at 1. unfold print at 1.
    unfold bind at 1. unfold get at 1.
    unfold bind at 1. unfold print at 1. fold w1.
    rewrite Hrun. reflexivity.
  - intros j Hj.
    assert (Hpos : (0 < length rows)%nat) by (destruct rows; [congruence | cbn; lia]).
    assert (Hin : (j mod length rows < length rows)%nat) by (apply Nat.mod_upper_bound; lia).
    destruct (nth_error rows (j mod length rows)) as [row|] eqn:Erow;
      [|apply nth_error_None in Erow; lia].
    destruct (Forall2_nth_error _ _ _ Hall _ _ Erow) as (r & Er & Hmatch).
    exists row, (reading_response r). split; [reflexivity|]. split.
    + rewrite (Hnth j Hj).
      cbn [csv_data set_csv_data current_data_index initial].
      rewrite Z.add_0_l, Hlen.
      replace (Z.to_nat (Z.of_nat j mod Z.of_nat (length rows)))
        with (j mod length rows)%nat
        by (rewrite <- Nat2Z.inj_mod; symmetry; apply Nat2Z.id).
      rewrite Er. reflexivity.
    + apply reading_response_serves_row. exact Hmatch.
Qed.

Lemma startup_serves_rows_in_order_witness :
  exists resps,
    result_of (main env_up source_one_row (repeat GET_voltage_data 3) initial io0)
      = Return resps
    /\ length resps = 3%nat
    /\ forall j, (j < 3)%nat ->
         exists row resp,
           nth_error [ [ ("Timestamp", Some "10:00:00"); ("Current (A)", Some "0.12") ] ]
             (j mod 1)%nat = Some row
           /\ nth_error resps j = Some resp
           /\ serves_row env_up row resp.
Proof.
  apply (startup_serves_rows_in_order env_up
           [ [ ("Timestamp", Some "10:00:00"); ("Current (A)", Some "0.12") ] ] 3 io0).
  - discriminate.
  - reflexivity.
Defined.

(* ================================================================== *)
(** ** Further properties of the notifier *)

Lemma sub_microseconds (a b : datetime) : sub a b = microseconds a - microseconds b.
Proof. unfold sub, microseconds. ring. Qed.

Lemma total_seconds_lt (td c : Z) :
  (total_seconds td < inject_Z c)%Q <-> td < c * 1000000.
Proof.
  unfold total_seconds, Qlt, inject_Z. cbn. lia.
Qed.

Lemma total_seconds_ge (td c : Z) :
  (inject_Z c <= total_seconds td)%Q <-> c * 1000000 <= td.
Proof.
  unfold total_seconds, Qle, inject_Z. cbn. lia.
Qed.

(** *** Status updates and the liveness probe *)

Lemma send_system_status_run (env : environment) (status : option string)
  (voltage : option Q) (uptime : option string)
  (self : VoltageSpikeNotifier) (w : io) :
  let msg := status_outbound self status voltage uptime (now_at env (clock_reads w)) in
  send_system_status env status voltage uptime self w =
    match transport env (length (outbox w)) msg with
    | None =>
        (Return true, self,
         io_log INFO "Successfully sent system status update" (io_send msg (io_tick w)))
    | Some e =>
        (Return false, self,
         io_log ERROR ("Failed to send system status: " ++ str_of_exception e)
           (io_send msg (io_tick w)))
    end.
Proof.
  intros msg. unfold send_system_status.
  unfold bind at 1. unfold datetime_now at 1.
  unfold try_except. unfold bind at 1. unfold get at 1.
  unfold bind at 1. unfold bot_send_message.
  change (length (outbox (io_tick w))) with (length (outbox w)).
  fold (status_outbound self status voltage uptime (now_at env (clock_reads w))).
  fold msg.
  destruct (transport env (length (outbox w)) msg) as [e|]; reflexivity.
Qed.

(** X8. [send_system_status] has no cooldown gate and keeps no state: in
    whatever state the notifier is, cooling or not, it makes exactly one
    delivery attempt, returns whether the transport accepted it, and
    leaves the notifier, [last_alert_time] included, as it was. *)
Theorem status_update_ignores_cooldown (env : environment) (status : option string)
  (voltage : option Q) (uptime : option string)
  (self : VoltageSpikeNotifier) (w : io) :
  let msg := status_outbound self status voltage uptime (now_at env (clock_reads w)) in
  let run := send_system_status env status voltage uptime self w in
  state_of run = self
  /\ outbox (io_of run) = List.app (outbox w) [msg]
  /\ result_of run =
       Return (match transport env (length (outbox w)) msg with
               | None => true
               | Some _ => false
               end).
Proof.
  intros msg run. subst run. rewrite send_system_status_run. fold msg.
  destruct (transport env (length (outbox w)) msg); repeat split.
Qed.

(** X9. A status update whose voltage is zero, or whose uptime is the
    empty string, goes out without that line, exactly as if the argument
    had been omitted. *)
Theorem status_update_drops_zero_voltage (env : environment) (status : option string)
  (voltage : option Q) (uptime : option string) (q : Q)
  (self : VoltageSpikeNotifier) (w : io) :
  (q == 0)%Q ->
  send_system_status env status (Some q) uptime self w
    = send_system_status env status None uptime self w
  /\ send_system_status env status voltage (Some EmptyString) self w
     = send_system_status env status voltage None self w.
Proof.
  intros Hq. split.
  - rewrite !send_system_status_run.
    assert (Hmsg : status_outbound self status (Some q) uptime (now_at env (clock_reads w))
                   = status_outbound self status None uptime (now_at env (clock_reads w))).
    { unfold status_outbound, status_message, truthy_float.
      apply Qeq_bool_iff in Hq. rewrite Hq. reflexivity. }
    rewrite Hmsg. reflexivity.
  - rewrite !send_system_status_run. reflexivity.
Qed.

Lemma status_update_drops_zero_voltage_witness :
  send_system_status env_up (Some "ONLINE") (Some (0 # 5)) None notifier0 io0
    = send_system_status env_up (Some "ONLINE") None None notifier0 io0
  /\ send_system_status env_up (Some "ONLINE") (Some (2201 # 10)) (Some EmptyString)
       notifier0 io0
     = send_system_status env_up (Some "ONLINE") (Some (2201 # 10)) None notifier0 io0.
Proof.
  apply (status_update_drops_zero_voltage env_up (Some "ONLINE") (Some (2201 # 10)) None
           (0 # 5) notifier0 io0).
  reflexivity.
Defined.

(** X10. [test_connection] is a probe and nothing more: it returns [True]
    exactly when [get_me] answered, never raises, leaves the notifier
    unchanged, makes no delivery attempt, does not read the clock, and
    logs one record. *)
Theorem test_connection_only_probes
  (get_me : outcome string) (self : VoltageSpikeNotifier) (w : io) :
  exists b record,
    test_connection get_me self w = (Return b, self, io_log (fst record) (snd record) w)
    /\ (b = true <-> exists username, get_me = Return username)
    /\ outbox (io_log (fst record) (snd record) w) = outbox w
    /\ clock_reads (io_log (fst record) (snd record) w) = clock_reads w.
Proof.
  destruct get_me as [username|e].
  - exists true, (INFO, "Bot connection successful: @" ++ username).
    split; [reflexivity|]. split; [|split; reflexivity].
    split; [eauto | reflexivity].
  - exists false, (ERROR, "Bot connection failed: " ++ str_of_exception e).
    split; [reflexivity|]. split; [|split; reflexivity].
    split; [discriminate | intros [u Hu]; discriminate].
Qed.

(** *** The gate and the recorded alert times *)

Lemma cooling_false_ge (self : VoltageSpikeNotifier) (last now : datetime) :
  last_alert_time self = Some last ->
  (cooling self now = false
   <-> (inject_Z (alert_cooldown self) <= total_seconds (sub now last))%Q).
Proof.
  intros Hlast. unfold cooling. rewrite Hlast. apply Qltb_ge.
Qed.

Lemma send_attempts (env : environment) (ev : spike_event)
  (self : VoltageSpikeNotifier) (w : io) :
  length (outbox (io_of (send_event env ev self w)))
    = if cooling self (now_at env (clock_reads w))
      then length (outbox w)
      else S (length (outbox w)).
Proof.
  unfold send_event.
  destruct (cooling self (now_at env (clock_reads w))) eqn:Hcool.
  - destruct (send_when_cooling env (ev_voltage ev) (ev_area ev) (ev_severity ev)
                (ev_info ev) self w Hcool) as (last & _ & ->).
    reflexivity.
  - rewrite (send_when_not_cooling env _ _ _ _ self w Hcool).
    rewrite deliver_alert_run.
    assert (Hout : outbox (after_gate self w) = outbox w).
    { unfold after_gate. destruct (last_alert_time self); reflexivity. }
    destruct (transport env _ _); cbn; rewrite Hout, length_app; cbn; lia.
Qed.

(** X11. The gate opens at the cooldown itself: with an alert time
    recorded, a send makes its delivery attempt exactly when the clock
    reads [alert_cooldown] seconds or more past it, the exact cooldown
    included; a notifier that has never alerted always makes the attempt. *)
Theorem gate_opens_at_cooldown (env : environment) (ev : spike_event)
  (self : VoltageSpikeNotifier) (w : io) :
  match last_alert_time self with
  | Some last =>
      length (outbox (io_of (send_event env ev self w))) = S (length (outbox w))
      <-> (inject_Z (alert_cooldown self)
           <= total_seconds (sub (now_at env (clock_reads w)) last))%Q
  | None =>
      length (outbox (io_of (send_event env ev self w))) = S (length (outbox w))
  end.
Proof.
  rewrite send_attempts.
  destruct (last_alert_time self) as [last|] eqn:Hlast.
  - rewrite <- (cooling_false_ge self last _ Hlast).
    destruct (cooling self (now_at env (clock_reads w))); split; intros H;
      try reflexivity; try discriminate; lia.
  - unfold cooling. rewrite Hlast. reflexivity.
Qed.

(** At exactly 300 seconds the send goes through. *)
Lemma send_after_exactly_300s :
  (total_seconds (sub (now_at env_up 0) (mkDatetime 2024 5 17 9 25 0 0)) == 300)%Q
  /\ result_of (send_event env_up spike_295 notifier_alerted_300s_ago io0) = Return true.
Proof. split; vm_compute; reflexivity. Qed.

(** X12. Recorded alert times are never lost and, on a clock that does
    not run backwards, never closer than the cooldown: after a send the
    notifier still has an alert time, and either it is the one it had or
    it lies at least [alert_cooldown] seconds after it. *)
Theorem alert_times_are_spaced (env : environment) (ev : spike_event)
  (self : VoltageSpikeNotifier) (w : io) (last : datetime) :
  clock_monotone env ->
  last_alert_time self = Some last ->
  exists last',
    last_alert_time (state_of (send_event env ev self w)) = Some last'
    /\ (last' = last
        \/ (inject_Z (alert_cooldown self) <= total_seconds (sub last' last))%Q).
Proof.
  intros Hmono Hlast. unfold send_event.
  destruct (cooling self (now_at env (clock_reads w))) eqn:Hcool.
  - destruct (send_when_cooling env (ev_voltage ev) (ev_area ev) (ev_severity ev)
                (ev_info ev) self w Hcool) as (last0 & _ & ->).
    exists last. split; [exact Hlast | left; reflexivity].
  - rewrite (send_when_not_cooling env _ _ _ _ self w Hcool).
    rewrite deliver_alert_run.
    destruct (transport env _ _).
    + exists last. split; [exact Hlast | left; reflexivity].
    + eexists. split; [reflexivity|]. right.
      apply (cooling_false_ge self last _ Hlast) in Hcool.
      apply (proj1 (total_seconds_ge _ _)) in Hcool. apply (proj2 (total_seconds_ge _ _)).
      unfold after_gate. rewrite Hlast. cbn [clock_reads io_tick].
      assert (Hstep : 0 <= sub (now_at env (S (S (clock_reads w))))
                             (now_at env (clock_reads w))) by (apply Hmono; lia).
      rewrite sub_microseconds in *. lia.
Qed.

Lemma alert_times_are_spaced_witness :
  exists last',
    last_alert_time (state_of (send_event env_up spike_295 notifier_alerted_300s_ago io0))
      = Some last'
    /\ (last' = mkDatetime 2024 5 17 9 25 0 0
        \/ (inject_Z (alert_cooldown notifier_alerted_300s_ago)
            <= total_seconds (sub last' (mkDatetime 2024 5 17 9 25 0 0)))%Q).
Proof.
  apply (alert_times_are_spaced env_up spike_295 notifier_alerted_300s_ago io0
           (mkDatetime 2024 5 17 9 25 0 0)).
  - intros i j Hij. rewrite sub_microseconds.
    unfold env_up, now_at, sample_clock, microseconds, toordinal.
    cbn [year month day hour minute second microsecond]. lia.
  - reflexivity.
Defined.

Lemma count_true_repeat_false (n : nat) :
  count_occ bool_dec (repeat false n) true = 0%nat.
Proof. induction n; cbn; auto. Qed.

(** Within one window at most one send of a run is delivered. *)
Lemma send_all_one_delivery (env : environment) (cooldown : Z) (lo hi : nat)
  (events : list spike_event) :
  one_window env cooldown lo hi ->
  forall (self : VoltageSpikeNotifier) (w : io),
    alert_cooldown self = cooldown ->
    (lo <= clock_reads w)%nat ->
    (clock_reads w + 3 * length events <= hi)%nat ->
    exists rs self' w',
      send_all env events self w = (Return rs, self', w')
      /\ (count_occ bool_dec rs true <= 1)%nat.
Proof.
  intros Hwin.
  induction events as [|ev events IH]; intros self w Hcd Hlo Hhi.
  - exists [], self, w. split; [reflexivity | cbn; lia].
  - cbn [length] in Hhi. cbn [send_all]. unfold bind at 1. unfold send_event at 1.
    destruct (cooling self (now_at env (clock_reads w))) eqn:Hcool.
    + destruct (send_when_cooling env (ev_voltage ev) (ev_area ev) (ev_severity ev)
                  (ev_info ev) self w Hcool) as (last & _ & ->).
      cbv beta iota. unfold bind at 1.
      match goal with
      | |- context [send_all env events self ?w1] =>
          destruct (IH self w1 Hcd) as (rs & self' & w' & Hrun & Hcount);
            [cbn; lia | cbn; lia |]
      end.
      exists (false :: rs), self', w'. rewrite Hrun.
      split; [reflexivity | cbn; exact Hcount].
    + rewrite (send_when_not_cooling env _ _ _ _ self w Hcool).
      rewrite deliver_alert_run.
      assert (Hgate : (clock_reads w <= clock_reads (after_gate self w)
                       <= S (clock_reads w))%nat).
      { unfold after_gate. destruct (last_alert_time self); cbn; lia. }
      destruct (transport env _ _) as [e|].
      * cbv beta iota. unfold bind at 1.
        match goal with
        | |- context [send_all env events self ?w1] =>
            destruct (IH self w1 Hcd) as (rs & self' & w' & Hrun & Hcount);
              [cbn; lia | cbn; lia |]
        end.
        exists (false :: rs), self', w'. rewrite Hrun.
        split; [reflexivity | cbn; exact Hcount].
      * cbv beta iota. unfold bind at 1.
        match goal with
        | |- context [send_all env events ?self1 ?w1] =>
            destruct (send_all_when_cooling env self1
                        (now_at env (S (clock_reads (after_gate self w)))) events w1
                        eq_refl) as (w' & Hrun & _)
        end.
        { intros k Hk. cbn in Hk. cbn [alert_cooldown set_last_alert_time].
          rewrite Hcd. apply Hwin; lia. }
        eexists (true :: repeat false (length events)), _, w'.
        rewrite Hrun.
        split; [reflexivity|]. cbn. rewrite count_true_repeat_false. lia.
Qed.

(** X13. The spam guard as the code gives it: in any run of sends whose
    clock readings all lie within one cooldown of each other, at most one
    send is delivered (returns [True]), however many events arrive and
    whatever the transport does. *)
Theorem one_delivery_per_window (env : environment) (events : list spike_event)
  (self : VoltageSpikeNotifier) (w : io) :
  one_window env (alert_cooldown self) (clock_reads w)
    (clock_reads w + 3 * length events) ->
  exists rs,
    result_of (send_all env events self w) = Return rs
    /\ length rs = length events
    /\ (count_occ bool_dec rs true <= 1)%nat.
Proof.
  intros Hwin.
  destruct (send_all_one_delivery env (alert_cooldown self) (clock_reads w)
              (clock_reads w + 3 * length events) events Hwin self w eq_refl)
    as (rs & self' & w' & Hrun & Hcount); [lia | lia |].
  exists rs. rewrite Hrun. split; [reflexivity|]. split; [|exact Hcount].
  clear Hwin Hcount. revert self w rs self' w' Hrun.
  induction events as [|ev events IH]; intros self w rs self' w' Hrun.
  - cbn in Hrun. injection Hrun as <- _ _. reflexivity.
  - cbn [send_all] in Hrun. unfold bind at 1 in Hrun.
    destruct (send_returns env (ev_voltage ev) (ev_area ev) (ev_severity ev)
                (ev_info ev) self w) as (b & s1 & w1 & record & Hsend & _).
    unfold send_event in Hrun. rewrite Hsend in Hrun.
    unfold bind at 1 in Hrun.
    destruct (send_all env events s1 w1) as [[[rs1|e] s2] w2] eqn:Hrest.
    + injection Hrun as <- _ _. cbn. f_equal. eapply IH. exact Hrest.
    + discriminate Hrun.
Qed.

Lemma one_delivery_per_window_witness :
  exists rs,
    result_of (send_all env_up [spike_295; spike_295; spike_295] notifier0 io0) = Return rs
    /\ length rs = 3%nat
    /\ (count_occ bool_dec rs true <= 1)%nat.
Proof.
  apply (one_delivery_per_window env_up [spike_295; spike_295; spike_295] notifier0 io0).
  intros i j Hlo Hij Hhi. apply (proj2 (total_seconds_lt _ _)).
  rewrite sub_microseconds.
  unfold env_up, now_at, sample_clock, microseconds, toordinal.
  cbn [year month day hour minute second microsecond].
  cbn in Hhi. cbn [alert_cooldown notifier0 init]. lia.
Defined.

(** *** The webhook entry point, further *)

(** X14. A webhook payload without a voltage counts as 0 V and never
    alerts.  A payload whose voltage is not a number makes
    [handle_voltage_data] raise the [TypeError] of the comparison: the
    handler has read the clock, nothing reaches the notifier, and the
    error is not absorbed. *)
Theorem webhook_without_a_number
  (env : environment) (data : list (string * json)) (h : WebhookHandler) (w : io) :
  (dict_find data "voltage" = None ->
   handle_voltage_data env data h w = (Return tt, h, io_tick w))
  /\ (forall e,
        as_number (dict_get data "voltage" (JInt 0)) = Raise e ->
        handle_voltage_data env data h w = (Raise e, h, io_tick w))
  /\ (forall s,
        dict_find data "voltage" = Some (JStr s) ->
        exists msg,
          handle_voltage_data env data h w = (Raise (Exc "TypeError" msg), h, io_tick w)).
Proof.
  split; [|split].
  - intros Hnone. unfold handle_voltage_data, dict_get. rewrite Hnone. reflexivity.
  - intros e He. unfold handle_voltage_data.
    unfold bind at 1. unfold datetime_now at 1.
    unfold bind at 1. rewrite He. reflexivity.
  - intros s Hs. eexists. unfold handle_voltage_data, dict_get. rewrite Hs. reflexivity.
Qed.

Lemma webhook_without_a_number_witness :
  handle_voltage_data env_up [("area", JStr "Fatih")] (mkHandler notifier0) io0
    = (Return tt, mkHandler notifier0, io_tick io0)
  /\ exists msg,
       handle_voltage_data env_up [("voltage", JStr "295.5")] (mkHandler notifier0) io0
         = (Raise (Exc "TypeError" msg), mkHandler notifier0, io_tick io0).
Proof.
  split.
  - apply (proj1 (webhook_without_a_number env_up [("area", JStr "Fatih")]
                    (mkHandler notifier0) io0)).
    reflexivity.
  - apply (proj2 (proj2 (webhook_without_a_number env_up [("voltage", JStr "295.5")]
                           (mkHandler notifier0) io0)) "295.5").
    reflexivity.
Defined.

Lemma severity_rank_cases (v : Q) :
  ((300 <= v)%Q /\ severity_rank (severity_for v) = 3)
  \/ ((280 <= v)%Q /\ (v < 300)%Q /\ severity_rank (severity_for v) = 2)
  \/ ((260 <= v)%Q /\ (v < 280)%Q /\ severity_rank (severity_for v) = 1)
  \/ ((v < 260)%Q /\ severity_rank (severity_for v) = 0).
Proof.
  destruct (severity_for_cases v)
    as [[H1 ->] | [(H1 & H2 & ->) | [(H1 & H2 & ->) | [H1 ->]]]]; auto 10.
Qed.

(** X15. The severity ladder is monotone and total: a higher voltage
    never gets a lower severity, and the severity is always one of the four
    the notifier knows, so that a webhook alert is never rendered with the
    fallback motif. *)
Theorem severity_ladder_is_monotone (v1 v2 : Q) :
  (v1 <= v2)%Q ->
  severity_rank (severity_for v1) <= severity_rank (severity_for v2)
  /\ recognized (severity_for v1) = true
  /\ dict_find severity_config (severity_for v1) <> None.
Proof.
  intros Hle. split; [|split].
  - destruct (severity_rank_cases v1) as [[H1 ->] | [(H1 & H2 & ->) | [(H1 & H2 & ->) | [H1 ->]]]];
      destruct (severity_rank_cases v2) as [[K1 ->] | [(K1 & K2 & ->) | [(K1 & K2 & ->) | [K1 ->]]]];
      try lia; exfalso; lra.
  - destruct (severity_for_cases v1)
      as [[H1 ->] | [(H1 & H2 & ->) | [(H1 & H2 & ->) | [H1 ->]]]]; reflexivity.
  - destruct (severity_for_cases v1)
      as [[H1 ->] | [(H1 & H2 & ->) | [(H1 & H2 & ->) | [H1 ->]]]]; discriminate.
Qed.

Lemma severity_ladder_is_monotone_witness :
  severity_rank (severity_for 265) <= severity_rank (severity_for (2855 # 10))
  /\ recognized (severity_for 265) = true
  /\ dict_find severity_config (severity_for 265) <> None.
Proof.
  apply (severity_ladder_is_monotone 265 (2855 # 10)).
  unfold Qle. cbn. lia.
Defined.

(* ================================================================== *)
(** ** The demo client against the application *)

(** X16. A spike simulated by the demo against the application's alert
    endpoint always prints 'Status: unknown' (the endpoint's answer has no
    status field) and 'Message: Alert sent successfully', and returns
    [True].  The demo does not send the severity of the event it picked,
    so the application prints severity MEDIUM for every one of the five
    events, the CRITICAL ones included. *)
Theorem demo_spike_against_app
  (env_c env_s : environment) (choice : Z) (g : globals) (ws wc : io) :
  0 <= choice < 5 ->
  exists event voltage area,
    index Demo.events choice = Return event
    /\ Demo.item event "voltage" = Return voltage
    /\ Demo.item event "area" = Return area
    /\ Demo.simulate_voltage_spike env_c choice (post_to_app env_s g ws) tt wc =
         (Return true, tt,
          io_prints
            [ "✅ Spike simulated: " ++ py_format env_c voltage ++ "V in "
              ++ py_format env_c area;
              "   Status: unknown";
              "   Message: Alert sent successfully" ]
            (io_tick wc))
    /\ In "   Severity: MEDIUM"
         (stdout (io_of (telegram_alert env_s
                           (Return (spike_body voltage area
                                      (now_at env_c (clock_reads wc))))
                           g ws))).
Proof.
  intros Hc.
  assert (Hcases : choice = 0 \/ choice = 1 \/ choice = 2 \/ choice = 3 \/ choice = 4)
    by lia.
  destruct Hcases as [-> | [-> | [-> | [-> | ->]]]];
    (do 3 eexists;
     split; [reflexivity|]; split; [reflexivity|]; split; [reflexivity|];
     split; [reflexivity|];
     match goal with
     | |- In _ (stdout (io_of (telegram_alert _ (Return (spike_body ?v ?a ?t)) _ _))) =>
         destruct (telegram_alert_on_object env_s
                     [ ("voltage", v); ("area", a); ("timestamp", JStr (isoformat t)) ]
                     g ws) as (w' & Hrun & Hstd & _);
         unfold spike_body; rewrite Hrun; cbn [io_of snd]; rewrite Hstd;
         apply in_or_app; right; cbn; auto 10
     end).
Qed.

Lemma demo_spike_against_app_witness :
  exists event voltage area,
    index Demo.events 1 = Return event
    /\ Demo.item event "voltage" = Return voltage
    /\ Demo.item event "area" = Return area
    /\ Demo.simulate_voltage_spike env_up 1 (post_to_app env_up initial io0) tt io0 =
         (Return true, tt,
          io_prints
            [ "✅ Spike simulated: " ++ py_format env_up voltage ++ "V in "
              ++ py_format env_up area;
              "   Status: unknown";
              "   Message: Alert sent successfully" ]
            (io_tick io0))
    /\ In "   Severity: MEDIUM"
         (stdout (io_of (telegram_alert env_up
                           (Return (spike_body voltage area (now_at env_up 0)))
                           initial io0))).
Proof.
  apply (demo_spike_against_app env_up env_up 1 initial io0 io0). lia.
Defined.

(** X17. The demo's server check against the application's status
    endpoint finds the fields it reads: it prints that the server is
    running, 'Status: online' and whether a notifier is set, and returns
    [True]. *)
Theorem demo_status_check_against_app (env : environment) (g : globals) (ws wc : io) :
  exists resp,
    status_endpoint g ws = (Return resp, g, ws)
    /\ Demo.check_server_status env (Return (reply_of resp)) tt wc =
         (Return true, tt,
          io_prints
            [ "✅ Server is running";
              "   Status: online";
              "   Telegram configured: "
                ++ (match telegram_notifier g with Some _ => "True" | None => "False" end) ]
            wc).
Proof.
  eexists. split; [reflexivity|].
  destruct (telegram_notifier g); reflexivity.
Qed.

(** Runs [simulate_voltage_spike] up to its request. *)
Ltac run_simulate :=
  unfold Demo.simulate_voltage_spike;
  cbv [bind lift_outcome index Demo.events length Z.ltb Z.leb Z.compare andb
       Z.of_nat Z.to_nat nth_error Demo.item dict_find String.eqb Ascii.eqb Bool.eqb
       datetime_now try_except Pos.compare Pos.compare_cont Pos.of_succ_nat Pos.succ
       Pos.to_nat Pos.iter_op Nat.add].

Lemma connection_error_is_exception (e : exception) :
  Demo.is_connection_error e = true -> Start.is_exception e = true.
Proof.
  destruct e as [cls msg]. unfold Demo.is_connection_error. cbn [existsb].
  intros H. repeat (apply orb_true_iff in H; destruct H as [H|H]);
    try discriminate; apply String.eqb_eq in H; subst cls; reflexivity.
Qed.

(** The handler of both demo functions returns [False] on what derives
    from [Exception] and lets the rest through. *)
Ltac run_demo_handler e :=
  let Hc := fresh "Hc" in
  destruct (Demo.is_connection_error e) eqn:Hc;
  [ rewrite (connection_error_is_exception e Hc); reflexivity
  | destruct (Start.is_exception e); reflexivity ].

(** X18. What [simulate_voltage_spike] returns, case by case.  An answer
    with a status other than 200 still gives [True]: the failure is only
    printed.  An answer with status 200 gives [True] when its body is a
    JSON object and [False] when it is any other JSON value or does not
    decode.  A request that raises gives [False] when the error derives
    from [Exception]; a [KeyboardInterrupt] is not absorbed.
    [check_server_status] gives [False] on any status other than 200. *)
Theorem demo_client_outcomes
  (env : environment) (choice : Z) (post : json -> outcome Demo.reply) (wc : io) :
  0 <= choice < 5 ->
  exists event voltage area,
    index Demo.events choice = Return event
    /\ Demo.item event "voltage" = Return voltage
    /\ Demo.item event "area" = Return area
    /\ (let run := Demo.simulate_voltage_spike env choice post tt wc in
        match post (spike_body voltage area (now_at env (clock_reads wc))) with
        | Return r =>
            if Demo.status_code r =? 200 then
              match Demo.reply_json r with
              | Return (JObj _) => result_of run = Return true
              | Return _ => result_of run = Return false
              | Raise e =>
                  result_of run = (if Start.is_exception e then Return false else Raise e)
              end
            else
              run = (Return true, tt,
                     io_print ("❌ Failed to send spike: " ++ decimal (Demo.status_code r))
                       (io_tick wc))
        | Raise e =>
            result_of run = (if Start.is_exception e then Return false else Raise e)
        end)
    /\ (forall r,
          result_of (Demo.check_server_status env (Return r) tt wc) =
            if Demo.status_code r =? 200 then
              match Demo.reply_json r with
              | Return (JObj _) => Return true
              | Return _ => Return false
              | Raise e => if Start.is_exception e then Return false else Raise e
              end
            else Return false).
Proof.
  intros Hc.
  assert (Hcases : choice = 0 \/ choice = 1 \/ choice = 2 \/ choice = 3 \/ choice = 4)
    by lia.
  assert (Hcheck : forall r,
            result_of (Demo.check_server_status env (Return r) tt wc) =
              if Demo.status_code r =? 200 then
                match Demo.reply_json r with
                | Return (JObj _) => Return true
                | Return _ => Return false
                | Raise e => if Start.is_exception e then Return false else Raise e
                end
              else Return false).
  { intros r. unfold Demo.check_server_status, try_except, bind, lift_outcome.
    destruct (Demo.status_code r =? 200); [|reflexivity].
    destruct (Demo.reply_json r) as [[| | | | | |]|e]; try reflexivity.
    cbv beta iota. run_demo_handler e. }
  destruct Hcases as [-> | [-> | [-> | [-> | ->]]]];
    (do 3 eexists;
     split; [reflexivity|]; split; [reflexivity|]; split; [reflexivity|];
     split; [|exact Hcheck];
     cbv zeta; unfold spike_body; run_simulate;
     match goal with
     | |- match post ?b with _ => _ end =>
         destruct (post b) as [r|e]
     end;
     [ cbv beta iota;
       destruct (Demo.status_code r =? 200); [|reflexivity];
       destruct (Demo.reply_json r) as [[| | | | | |]|e]; try reflexivity;
       cbv beta iota; run_demo_handler e
     | cbv beta iota; run_demo_handler e ]).
Qed.

Lemma demo_client_outcomes_witness :
  exists event voltage area,
    index Demo.events 1 = Return event
    /\ Demo.item event "voltage" = Return voltage
    /\ Demo.item event "area" = Return area
    /\ Demo.simulate_voltage_spike env_up 1
         (fun _ => Return (Demo.mkReply 200 (Return (JArr [])))) tt io0
       = (Return false, tt,
          io_prints
            [ "✅ Spike simulated: " ++ py_format env_up voltage ++ "V in "
              ++ py_format env_up area;
              "❌ Error: 'list' object has no attribute 'get'" ]
            (io_tick io0)).
Proof.
  destruct (demo_client_outcomes env_up 1
              (fun _ => Return (Demo.mkReply 200 (Return (JArr [])))) io0 ltac:(lia))
    as (event & voltage & area & Hev & Hv & Ha & _ & _).
  exists event, voltage, area.
  split; [exact Hev|]. split; [exact Hv|]. split; [exact Ha|].
  cbn in Hev. injection Hev as <-. cbn in Hv, Ha.
  injection Hv as <-. injection Ha as <-. reflexivity.
Defined.

(* ================================================================== *)
(** ** The start-up script *)

Lemma bind_return {St A B} (m : M St A) (k : A -> M St B) (s s' : St) (w w' : io) (a : A) :
  m s w = (Return a, s', w') -> bind m k s w = k a s' w'.
Proof. intros H. unfold bind. rewrite H. reflexivity. Qed.

Lemma bind_raise {St A B} (m : M St A) (k : A -> M St B) (s s' : St) (w w' : io)
  (e : exception) :
  m s w = (Raise e, s', w') -> bind m k s w = (Raise e, s', w').
Proof. intros H. unfold bind. rewrite H. reflexivity. Qed.

Lemma usable_iff (v : option string) (placeholder : string) :
  negb (Start.truthy_env v) || Start.env_is v placeholder = false
  <-> usable v placeholder.
Proof.
  unfold usable. destruct v as [[|c s]|]; cbn [Start.truthy_env Start.env_is negb orb].
  - split; [discriminate | intros (s & Hs & Hne & _); injection Hs as <-; congruence].
  - split.
    + intros H. exists (String c s). split; [reflexivity|]. split; [discriminate|].
      apply String.eqb_neq. exact H.
    + intros (s' & Hs & _ & Hp). injection Hs as <-. apply String.eqb_neq. exact Hp.
  - split; [discriminate | intros (s & Hs & _); discriminate].
Qed.

(** X19. [check_telegram_config] returns [True] exactly when both
    TELEGRAM_BOT_TOKEN and TELEGRAM_CHAT_ID are set, not empty and not the
    placeholders; it only prints. *)
Theorem telegram_config_check (getenv : string -> option string)
  (s : Start.process) (w : io) :
  exists b w',
    Start.check_telegram_config getenv s w = (Return b, s, w')
    /\ (b = true <->
        usable (getenv "TELEGRAM_BOT_TOKEN") "YOUR_BOT_TOKEN_HERE"
        /\ usable (getenv "TELEGRAM_CHAT_ID") "YOUR_CHAT_ID_HERE").
Proof.
  unfold Start.check_telegram_config.
  pose proof (usable_iff (getenv "TELEGRAM_BOT_TOKEN") "YOUR_BOT_TOKEN_HERE") as Ht.
  pose proof (usable_iff (getenv "TELEGRAM_CHAT_ID") "YOUR_CHAT_ID_HERE") as Hc.
  destruct (negb (Start.truthy_env (getenv "TELEGRAM_BOT_TOKEN"))
            || Start.env_is (getenv "TELEGRAM_BOT_TOKEN") "YOUR_BOT_TOKEN_HERE").
  - do 2 eexists. split; [reflexivity|].
    split; [discriminate|]. intros [Hu _]. apply Ht in Hu. discriminate.
  - destruct (negb (Start.truthy_env (getenv "TELEGRAM_CHAT_ID"))
              || Start.env_is (getenv "TELEGRAM_CHAT_ID") "YOUR_CHAT_ID_HERE").
    + do 2 eexists. split; [reflexivity|].
      split; [discriminate|]. intros [_ Hu]. apply Hc in Hu. discriminate.
    + do 2 eexists. split; [reflexivity|].
      split; [|reflexivity]. intros _. split; [apply Ht | apply Hc]; reflexivity.
Qed.

Lemma collect_missing_run (find_spec : string -> bool) (packages : list string) :
  forall (acc : list string) (s : Start.process) (w : io),
    Start.collect_missing find_spec packages acc s w =
      (Return (acc ++ filter (fun package => negb (find_spec package)) packages)%list,
       s,
       io_prints (map (fun package => "✅ " ++ package ++ " is installed")
                      (filter find_spec packages)) w).
Proof.
  induction packages as [|package rest IH]; intros acc s w.
  - cbn. rewrite app_nil_r. reflexivity.
  - cbn [Start.collect_missing filter]. destruct (find_spec package); cbn [negb map].
    + unfold bind, print. rewrite IH. reflexivity.
    + rewrite IH. rewrite <- app_assoc. reflexivity.
Qed.

Lemma check_dependencies_run (find_spec : string -> bool) (executable : string)
  (pip : option exception) (s : Start.process) (w : io) :
  exists w',
    Start.check_dependencies find_spec executable pip s w =
      match missing_packages find_spec with
      | [] => (Return true, s, w')
      | _ :: _ =>
          (match pip with
           | None => Return true
           | Some e => if Start.has_class "CalledProcessError" e then Return false
                       else Raise e
           end,
           Start.mkProcess (Start.subprocess_calls s ++ [pip_argv executable])%list
             (Start.app_runs s),
           w')
      end.
Proof.
  unfold Start.check_dependencies. unfold bind at 1.
  rewrite collect_missing_run. cbn [app]. fold (missing_packages find_spec).
  destruct (missing_packages find_spec) as [|p ps].
  - eexists. reflexivity.
  - destruct pip as [e|].
    + destruct (Start.has_class "CalledProcessError" e) eqn:Hcls.
      * eexists. unfold bind, print, try_except, Start.check_call. rewrite Hcls.
        reflexivity.
      * eexists. unfold bind, print, try_except, Start.check_call. rewrite Hcls.
        reflexivity.
    + eexists. reflexivity.
Qed.

(** X20. [check_dependencies] runs pip exactly when one of the four
    required packages is not found, once, on requirements.txt.  It
    returns [True] when nothing is missing or pip ran through (without
    looking for the packages again), [False] when pip exits with an error,
    and lets any other failure of the call out. *)
Theorem dependency_check (find_spec : string -> bool) (executable : string)
  (pip : option exception) (s : Start.process) (w : io) :
  let run := Start.check_dependencies find_spec executable pip s w in
  match missing_packages find_spec with
  | [] =>
      result_of run = Return true /\ state_of run = s
  | _ :: _ =>
      Start.subprocess_calls (state_of run)
        = List.app (Start.subprocess_calls s) [pip_argv executable]
      /\ result_of run =
           match pip with
           | None => Return true
           | Some e => if Start.has_class "CalledProcessError" e then Return false
                       else Raise e
           end
  end.
Proof.
  intros run. subst run.
  destruct (check_dependencies_run find_spec executable pip s w) as [w' Hrun].
  rewrite Hrun. destruct (missing_packages find_spec); split; reflexivity.
Qed.

Lemma check_python_version_run (version_info : list Z) (version first : string)
  (s : Start.process) (w : io) :
  Start.split_first version = Return first ->
  exists w',
    Start.check_python_version version_info version s w =
      (Return (negb (Start.tuple_lt version_info [3; 8])), s, w').
Proof.
  intros Hfirst. unfold Start.check_python_version.
  destruct (Start.tuple_lt version_info [3; 8]).
  - eexists. reflexivity.
  - eexists. unfold bind at 1. rewrite Hfirst. reflexivity.
Qed.

Lemma check_telegram_config_run (getenv : string -> option string)
  (s : Start.process) (w : io) :
  exists b w', Start.check_telegram_config getenv s w = (Return b, s, w').
Proof.
  unfold Start.check_telegram_config.
  destruct (negb _ || _); [do 2 eexists; reflexivity|].
  destruct (negb _ || _); do 2 eexists; reflexivity.
Qed.

(** How [main] ends once the checks are settled. *)
Ltac run_main_tail :=
  cbv beta iota delta
    [bind print ret raise try_except Start.app_run Start.sys_exit
     Start.print_instructions negb result_of state_of fst snd
     Start.app_runs Start.subprocess_calls absent andb].

(** X21. [main] enters [app.run] exactly when the Python version is at
    least 3.8, the dependency check passes and the application imports;
    whether Telegram is configured plays no part.  When the version is too
    old it exits with status 1 before anything else; when pip fails it
    exits with status 1 without starting; once started, Ctrl+C and a
    normal return end it quietly, any other error turns into exit
    status 1. *)
Theorem start_runs_app_iff_checks_pass
  (version_info : list Z) (version first : string)
  (find_spec : string -> bool) (executable : string) (pip : option exception)
  (getenv : string -> option string)
  (import_app app_end : option exception) (s : Start.process) (w : io) :
  Start.split_first version = Return first ->
  let run := Start.main version_info version find_spec executable pip getenv
               import_app app_end s w in
  Start.app_runs (state_of run)
    = (if negb (Start.tuple_lt version_info [3; 8])
          && dependencies_pass find_spec pip && absent import_app
       then S (Start.app_runs s) else Start.app_runs s)
  /\ (Start.tuple_lt version_info [3; 8] = true ->
      result_of run = Raise (Exc "SystemExit" "1") /\ state_of run = s)
  /\ (Start.tuple_lt version_info [3; 8] = false ->
      forall e, pip = Some e -> missing_packages find_spec <> [] ->
      result_of run =
        (if Start.has_class "CalledProcessError" e then Raise (Exc "SystemExit" "1")
         else Raise e))
  /\ (Start.tuple_lt version_info [3; 8] = false ->
      dependencies_pass find_spec pip = true ->
      import_app = None ->
      result_of run =
        match app_end with
        | None => Return tt
        | Some e =>
            if Start.has_class "KeyboardInterrupt" e then Return tt
            else if Start.is_exception e then Raise (Exc "SystemExit" "1")
            else Raise e
        end).
Proof.
  intros Hfirst run. subst run. unfold Start.main.
  erewrite bind_return by reflexivity.
  destruct (check_python_version_run version_info version first s
              (io_print Start.banner w) Hfirst) as [w1 Hv].
  cbv beta. erewrite bind_return by exact Hv.
  destruct (Start.tuple_lt version_info [3; 8]) eqn:Hlt; cbn [negb andb].
  { split; [reflexivity|]. split; [intros _; split; reflexivity|].
    split; [discriminate | discriminate]. }
  destruct (check_dependencies_run find_spec executable pip s w1) as [w2 Hd].
  unfold dependencies_pass.
  destruct (missing_packages find_spec) as [|p ps] eqn:Hmiss.
  - erewrite bind_return by exact Hd. cbn [negb].
    destruct (check_telegram_config_run getenv s w2) as (tc & w3 & Htc).
    erewrite bind_return by exact Htc.
    split; [|split; [discriminate|split; [intros _ e _ Hne; congruence|intros _ _ ->]]].
    + destruct tc, import_app as [[ic im]|], app_end as [[ac am]|]; run_main_tail;
        repeat match goal with
               | |- context [if ?b then _ else _] => destruct b
               end; reflexivity.
    + destruct tc, app_end as [[ac am]|]; run_main_tail;
        repeat match goal with
               | |- context [if ?b then _ else _] => destruct b
               end; reflexivity.
  - destruct pip as [e|].
    + destruct (Start.has_class "CalledProcessError" e) eqn:Hcls.
      * erewrite bind_return by exact Hd. cbn [negb].
        split; [reflexivity|]. split; [discriminate|].
        split; [|discriminate].
        intros _ e' He' _. injection He' as <-. rewrite Hcls. reflexivity.
      * erewrite bind_raise by exact Hd.
        split; [reflexivity|]. split; [discriminate|].
        split; [|discriminate].
        intros _ e' He' _. injection He' as <-. rewrite Hcls. reflexivity.
    + erewrite bind_return by exact Hd. cbn [negb].
      destruct (check_telegram_config_run getenv
                  (Start.mkProcess (Start.subprocess_calls s ++ [pip_argv executable])%list
                     (Start.app_runs s)) w2) as (tc & w3 & Htc).
      erewrite bind_return by exact Htc.
      split; [|split; [discriminate|split; [intros _ e He; discriminate|intros _ _ ->]]].
      * destruct tc, import_app as [[ic im]|], app_end as [[ac am]|]; run_main_tail;
          repeat match goal with
                 | |- context [if ?b then _ else _] => destruct b
                 end; reflexivity.
      * destruct tc, app_end as [[ac am]|]; run_main_tail;
          repeat match goal with
                 | |- context [if ?b then _ else _] => destruct b
                 end; reflexivity.
Qed.

Lemma start_runs_app_iff_checks_pass_witness :
  Start.split_first "3.11.4 (main, Jun  7 2023)" = Return "3.11.4"
  /\ Start.app_runs
       (state_of (Start.main [3; 11; 4] "3.11.4 (main, Jun  7 2023)" (fun _ => true)
                    "python3" None (fun _ => None) None
                    (Some (Exc "KeyboardInterrupt" EmptyString))
                    (Start.mkProcess [] 0) io0)) = 1%nat.
Proof.
  split; [reflexivity|].
  apply (proj1 (start_runs_app_iff_checks_pass [3; 11; 4] "3.11.4 (main, Jun  7 2023)"
                  "3.11.4" (fun _ => true) "python3" None (fun _ => None) None
                  (Some (Exc "KeyboardInterrupt" EmptyString))
                  (Start.mkProcess [] 0) io0 eq_refl)).
Defined.

(* ================================================================== *)
(** ** The application as imported *)

Lemma dispatch_as_imported (env : environment) (r : request) (g : globals) (w : io) :
  csv_data g = [] ->
  telegram_notifier g = None ->
  exists resp g' w',
    dispatch env r g w = (Return resp, g', w')
    /\ csv_data g' = []
    /\ telegram_notifier g' = None
    /\ answered_as_imported r resp.
Proof.
  intros Hcsv Htn.
  destruct r as [|body| |]; cbn [dispatch answered_as_imported].
  - exists (jsonify [ ("status", JStr "online"); ("telegram_configured", JBool false);
                      ("data_source", JStr "Simulated") ]), g, w.
    unfold status_endpoint, bind, get, ret. rewrite Hcsv, Htn. auto.
  - destruct (telegram_alert_handler_ok env body g w)
      as (resp & g' & w' & Hrun & _ & Hc & Ht & _).
    exists resp, g', w'. rewrite Hrun. repeat split; congruence.
  - unfold get_voltage_data, try_except. unfold bind at 1.
    rewrite (get_next_data_point_empty g w Hcsv).
    do 3 eexists. split; [reflexivity|]. split; [exact Hcsv|]. split; [exact Htn|].
    do 3 eexists. reflexivity.
  - rewrite get_csv_data_run. do 3 eexists. split; [reflexivity|].
    split; [exact Hcsv|]. split; [exact Htn|].
    unfold last_n. rewrite Hcsv. reflexivity.
Qed.

(** X22. Only the [__main__] block of app.py loads the CSV file.  An
    application that is served as imported, which is how start.py runs it,
    never has readings: whatever requests it serves, every status answer
    names the data source 'Simulated' and no Telegram, every voltage answer
    is a generated reading and the recent-data answer is empty. *)
Theorem served_as_imported_is_simulated
  (env : environment) (requests : list request) (w : io) :
  exists resps,
    result_of (serve env requests initial w) = Return resps
    /\ csv_data (state_of (serve env requests initial w)) = []
    /\ Forall2 answered_as_imported requests resps.
Proof.
  assert (H : forall g w0,
             csv_data g = [] -> telegram_notifier g = None ->
             exists resps g' w',
               serve env requests g w0 = (Return resps, g', w')
               /\ csv_data g' = []
               /\ Forall2 answered_as_imported requests resps).
  { induction requests as [|r requests IH]; intros g w0 Hcsv Htn.
    - exists [], g, w0. split; [reflexivity|]. split; [exact Hcsv | constructor].
    - destruct (dispatch_as_imported env r g w0 Hcsv Htn)
        as (resp & g1 & w1 & Hrun & Hcsv1 & Htn1 & Hans).
      destruct (IH g1 w1 Hcsv1 Htn1) as (resps & g' & w' & Hrest & Hcsv' & Hall).
      exists (resp :: resps), g', w'. cbn [serve].
      erewrite bind_return by exact Hrun. erewrite bind_return by exact Hrest.
      split; [reflexivity|]. split; [exact Hcsv' | constructor; assumption]. }
  destruct (H initial w eq_refl eq_refl) as (resps & g' & w' & Hrun & Hcsv & Hall).
  exists resps. rewrite Hrun. auto.
Qed.

(* ================================================================== *)
(** ** The version check *)

Lemma tuple_lt_3_8 (major minor micro : Z) :
  Start.tuple_lt [major; minor; micro] [3; 8] = false
  <-> 3 < major \/ (major = 3 /\ 8 <= minor).
Proof.
  cbn [Start.tuple_lt].
  destruct (major <? 3) eqn:E1; [apply Z.ltb_lt in E1; split; [discriminate|lia]|].
  apply Z.ltb_ge in E1.
  destruct (3 <? major) eqn:E2; [apply Z.ltb_lt in E2; split; [lia|reflexivity]|].
  apply Z.ltb_ge in E2.
  destruct (minor <? 8) eqn:E3; [apply Z.ltb_lt in E3; split; [discriminate|lia]|].
  apply Z.ltb_ge in E3.
  destruct (8 <? minor); split; intros; try reflexivity; lia.
Qed.

(** X23. [check_python_version] accepts exactly the versions from 3.8 on:
    it returns [True] when the major version exceeds 3, or is 3 with a
    minor version of 8 or more, whatever the micro version; it only
    prints. *)
Theorem python_version_check (major minor micro : Z) (version first : string)
  (s : Start.process) (w : io) :
  Start.split_first version = Return first ->
  exists b w',
    Start.check_python_version [major; minor; micro] version s w = (Return b, s, w')
    /\ (b = true <-> 3 < major \/ (major = 3 /\ 8 <= minor)).
Proof.
  intros Hfirst.
  destruct (check_python_version_run [major; minor; micro] version first s w Hfirst)
    as [w' Hrun].
  exists (negb (Start.tuple_lt [major; minor; micro] [3; 8])), w'.
  split; [exact Hrun|].
  rewrite negb_true_iff. apply tuple_lt_3_8.
Qed.

Lemma python_version_check_witness :
  exists b w',
    Start.check_python_version [3; 8; 0] "3.8.0 (default)" (Start.mkProcess [] 0) io0
      = (Return b, Start.mkProcess [] 0, w')
    /\ (b = true <-> 3 < 3 \/ (3 = 3 /\ 8 <= 8)).
Proof.
  apply (python_version_check 3 8 0 "3.8.0 (default)" "3.8.0" (Start.mkProcess [] 0) io0).
  reflexivity.
Defined.
